(** * PyRIT prompt normalizer: a shallow embedding of
    [pyrit/prompt_normalizer/prompt_normalizer.py].

    The class [PromptNormalizer] builds a request from a seed prompt group,
    runs converter chains over it, sends it to a target, and records every
    request and response in the central memory.  Python objects are records,
    [dict[str, str]] is a [gmap string string], [int] is [Z], and an
    [async def] is a function from the world (memory and the uuid source) to
    a result and a new world.  Objects mutated in place are returned as new
    values by the functions that mutate them. *)

From stdpp Require Import gmap strings list fin_maps pretty.
From Stdlib Require Import ZArith.

Local Open Scope string_scope.
Local Open Scope list_scope.

(** ** Python values *)

Abbreviation StrDict := (gmap string string).

(** [PromptDataType] is a [Literal] of strings in the source: "text",
    "image_path", "error", ... *)
Abbreviation PromptDataType := string (only parsing).

(** Truthiness of an [Optional[list]]: [None] and [[]] are falsy. *)
Definition truthy {A} (xs : option (list A)) : bool :=
  match xs with
  | Some (_ :: _) => true
  | _ => false
  end.

(** [x in xs]; only evaluated by the source behind [truthy xs]. *)
Definition py_in `{EqDecision A} (x : A) (xs : option (list A)) : bool :=
  bool_decide (x ∈ default [] xs).

(** Truthiness of an [Optional[str]]: [None] and the empty string are falsy. *)
Definition truthy_str (s : option string) : bool :=
  match s with
  | Some (String _ _) => true
  | _ => false
  end.

(** ** The data model ([pyrit.models]) *)

Record SeedPrompt := {
  value : string;
  data_type : PromptDataType;
  metadata : option StrDict;
}.

Record SeedPromptGroup := {
  prompts : list SeedPrompt;
}.

Record PromptRequestPiece := {
  role : string;
  original_value : string;
  original_value_data_type : PromptDataType;
  original_value_sha256 : option string;
  converted_value : string;
  converted_value_data_type : PromptDataType;
  converted_value_sha256 : option string;
  conversation_id : string;
  sequence : Z;
  labels : option StrDict;
  prompt_metadata : option StrDict;
  prompt_target_identifier : StrDict;
  orchestrator_identifier : option StrDict;
  converter_identifiers : list StrDict;
  response_error : string;
}.

Record PromptRequestResponse := {
  request_pieces : list PromptRequestPiece;
}.

(** Modelled from the spec: the constructor of [PromptRequestPiece]
    ([pyrit.models], not part of the sources at hand).  A new piece has its
    converted value and converted data type equal to the original ones unless
    a converted data type is given, an empty list of applied converters, and
    no hash yet. *)
Definition PromptRequestPiece__init__
    (role_ original_value_ conversation_id_ : string) (sequence_ : Z)
    (labels_ prompt_metadata_ : option StrDict)
    (prompt_target_identifier_ : StrDict)
    (orchestrator_identifier_ : option StrDict)
    (original_value_data_type_ : PromptDataType)
    (converted_value_data_type_ : option PromptDataType)
    (response_error_ : string) : PromptRequestPiece :=
  {| role := role_;
     original_value := original_value_;
     original_value_data_type := original_value_data_type_;
     original_value_sha256 := None;
     converted_value := original_value_;
     converted_value_data_type :=
       default original_value_data_type_ converted_value_data_type_;
     converted_value_sha256 := None;
     conversation_id := conversation_id_;
     sequence := sequence_;
     labels := labels_;
     prompt_metadata := prompt_metadata_;
     prompt_target_identifier := prompt_target_identifier_;
     orchestrator_identifier := orchestrator_identifier_;
     converter_identifiers := [];
     response_error := response_error_ |}.

(** The three attributes [convert_values] assigns, as one in-place update. *)
Definition set_converted (piece : PromptRequestPiece)
    (identifiers : list StrDict) (text : string) (type : PromptDataType)
  : PromptRequestPiece :=
  {| role := role piece;
     original_value := original_value piece;
     original_value_data_type := original_value_data_type piece;
     original_value_sha256 := original_value_sha256 piece;
     converted_value := text;
     converted_value_data_type := type;
     converted_value_sha256 := converted_value_sha256 piece;
     conversation_id := conversation_id piece;
     sequence := sequence piece;
     labels := labels piece;
     prompt_metadata := prompt_metadata piece;
     prompt_target_identifier := prompt_target_identifier piece;
     orchestrator_identifier := orchestrator_identifier piece;
     converter_identifiers := identifiers;
     response_error := response_error piece |}.

(** ** Converters ([pyrit.prompt_converter], an interface) *)

Record ConverterResult := {
  output_text : string;
  output_type : PromptDataType;
}.

Module PromptConverter.
(** [convert_tokens_async prompt input_type start_token end_token]. *)
Record t := {
  get_identifier : StrDict;
  convert_tokens_async :
    string → PromptDataType → string → string → ConverterResult;
}.
End PromptConverter.

Record PromptConverterConfiguration := {
  converters : list PromptConverter.t;
  indexes_to_apply : option (list Z);
  prompt_data_types_to_apply : option (list PromptDataType);
}.

(** ** [PromptNormalizer]: converter chains *)

Record PromptNormalizer := {
  _start_token : string;
  _end_token : string;
  id : string;
}.

(** One turn of the loop [for converter in converter_configuration.converters]. *)
Definition convert_step (self : PromptNormalizer)
    (converted : string * PromptDataType) (converter : PromptConverter.t)
  : string * PromptDataType :=
  let converter_result :=
    PromptConverter.convert_tokens_async converter
      converted.1 converted.2 (_start_token self) (_end_token self) in
  (output_text converter_result, output_type converter_result).

(** The two [continue] guards of [convert_values]. *)
Definition skipped (converter_configuration : PromptConverterConfiguration)
    (piece_index : nat) (piece : PromptRequestPiece) : bool :=
  let indexes := indexes_to_apply converter_configuration in
  let data_types := prompt_data_types_to_apply converter_configuration in
  if truthy indexes && negb (py_in (Z.of_nat piece_index) indexes) then true
  else if truthy data_types
          && negb (py_in (converted_value_data_type piece) data_types)
  then true
  else false.

(** What the inner loop does to a piece the guards let through: the
    identifiers of the converters are appended, the converters run in turn,
    and the piece gets the last value and data type. *)
Definition apply_converters (self : PromptNormalizer)
    (converter_configuration : PromptConverterConfiguration)
    (piece : PromptRequestPiece) : PromptRequestPiece :=
  let identifiers :=
    converter_identifiers piece
    ++ (PromptConverter.get_identifier <$> converters converter_configuration) in
  let converted :=
    foldl (convert_step self)
      (converted_value piece, converted_value_data_type piece)
      (converters converter_configuration) in
  set_converted piece identifiers converted.1 converted.2.

(** The body of the inner loop of [convert_values] for one piece. *)
Definition convert_piece (self : PromptNormalizer)
    (converter_configuration : PromptConverterConfiguration)
    (piece_index : nat) (piece : PromptRequestPiece) : PromptRequestPiece :=
  if skipped converter_configuration piece_index piece then piece
  else apply_converters self converter_configuration piece.

(** [convert_values]: for every configuration, for every piece with its index. *)
Definition convert_values (self : PromptNormalizer)
    (converter_configurations : list PromptConverterConfiguration)
    (request_response : PromptRequestResponse) : PromptRequestResponse :=
  foldl
    (λ response converter_configuration,
       {| request_pieces :=
            imap (convert_piece self converter_configuration)
              (request_pieces response) |})
    request_response converter_configurations.

(** ** Exceptions, the world, and coroutines *)

(** The instances of [Exception] the normalizer tells apart:
    [EmptyResponseException] ([pyrit.exceptions]) and every other one, kept
    with its class name and its [str(ex)].  These are what
    [except Exception] catches; a [BaseException] that is no [Exception]
    (a [KeyboardInterrupt], a cancellation) passes both handlers and is not
    part of this model. *)
Inductive PyException :=
  | EmptyResponseException (message : string)
  | OtherException (class_name message : string).

Definition str (ex : PyException) : string :=
  match ex with
  | EmptyResponseException message => message
  | OtherException _ message => message
  end.

Definition IndexError : PyException :=
  OtherException "IndexError" "list index out of range".

Definition TypeError (message : string) : PyException :=
  OtherException "TypeError" message.

Inductive Result (A : Type) :=
  | Returned (a : A)
  | Raised (ex : PyException).
Arguments Returned {A} a.
Arguments Raised {A} ex.

(** Which variable of [send_prompt_async] a call of
    [_calc_hash_and_add_request_to_memory] was given as its [request=]
    argument: [request], [response] or [error_response]. *)
Inductive Argument :=
  | arg_request
  | arg_response
  | arg_error_response.

#[global] Instance Argument_eq_dec : EqDecision Argument.
Proof. solve_decision. Defined.

(** One call of [add_request_response_to_memory]: what was stored, and for
    which variable of the caller. *)
Record MemoryWrite := {
  written_for : Argument;
  stored : PromptRequestResponse;
}.

(** The state outside the normalizer: the central memory, as the list of
    writes in the order they were made, and the source [uuid4] draws from. *)
Record World := {
  memory : list MemoryWrite;
  uuid4_source : nat → string;
  uuid4_calls : nat;
}.

(** An [async def] returning [A]. *)
Definition Async (A : Type) : Type := World → Result A * World.

#[global] Instance Async_ret : MRet Async :=
  λ A (a : A) (w : World), (Returned a, w).

#[global] Instance Async_bind : MBind Async :=
  λ A B (f : A → Async B) (m : Async A) (w : World),
    match m w with
    | (Returned a, w') => f a w'
    | (Raised ex, w') => (Raised ex, w')
    end.

Definition raise {A} (ex : PyException) : Async A :=
  λ w, (Raised ex, w).

(** [try: body  except Exception as ex: handler ex]. *)
Definition try_except {A} (body : Async A) (handler : PyException → Async A)
  : Async A :=
  λ w,
    match body w with
    | (Returned a, w') => (Returned a, w')
    | (Raised ex, w') => handler ex w'
    end.

(** [str(uuid4())]. *)
Definition uuid4 : Async string :=
  λ w,
    (Returned (uuid4_source w (uuid4_calls w)),
     {| memory := memory w;
        uuid4_source := uuid4_source w;
        uuid4_calls := S (uuid4_calls w) |}).

(** The world after one more write to the memory. *)
Definition written (argument : Argument) (request : PromptRequestResponse)
    (w : World) : World :=
  {| memory := memory w ++ [{| written_for := argument; stored := request |}];
     uuid4_source := uuid4_source w;
     uuid4_calls := uuid4_calls w |}.

(** Modelled from the spec: [MemoryInterface.add_request_response_to_memory]
    ([pyrit.memory], not part of the sources at hand) takes a request or
    response and returns nothing; the memory keeps what it was given, as it
    was when given.  The write is taken to succeed. *)
Definition add_request_response_to_memory
    (argument : Argument) (request : PromptRequestResponse) : Async unit :=
  λ w, (Returned (), written argument request w).

(** [request_pieces[0]]. *)
Definition first_piece (request : PromptRequestResponse)
  : Async PromptRequestPiece :=
  match request_pieces request with
  | piece :: _ => mret piece
  | [] => raise IndexError
  end.

(** ** Hashing and the synthesized responses ([pyrit.models]) *)

(** The hash function behind [set_sha256_values_async], as a function of
    the value. *)
Class Sha256 := sha256 : string → string.

(** Modelled from the spec: [PromptRequestPiece.set_sha256_values_async]
    ([pyrit.models], not part of the sources at hand) stores the hash of the
    original value and the hash of the converted value in the piece. *)
Definition set_sha256_values_async `{Sha256} (piece : PromptRequestPiece)
  : PromptRequestPiece :=
  {| role := role piece;
     original_value := original_value piece;
     original_value_data_type := original_value_data_type piece;
     original_value_sha256 := Some (sha256 (original_value piece));
     converted_value := converted_value piece;
     converted_value_data_type := converted_value_data_type piece;
     converted_value_sha256 := Some (sha256 (converted_value piece));
     conversation_id := conversation_id piece;
     sequence := sequence piece;
     labels := labels piece;
     prompt_metadata := prompt_metadata piece;
     prompt_target_identifier := prompt_target_identifier piece;
     orchestrator_identifier := orchestrator_identifier piece;
     converter_identifiers := converter_identifiers piece;
     response_error := response_error piece |}.

(** Modelled from the spec: [construct_response_from_request]
    ([pyrit.models], not part of the sources at hand) answers a request piece
    with one piece per response text, of role "assistant", in the request's
    conversation and with its labels and identifiers, of the given data type
    and marked with the given error kind. *)
Definition construct_response_from_request (request : PromptRequestPiece)
    (response_text_pieces : list string) (response_type : PromptDataType)
    (error : string) : PromptRequestResponse :=
  {| request_pieces :=
       (λ resp_text,
          PromptRequestPiece__init__ "assistant" resp_text
            (conversation_id request) (-1) (labels request) None
            (prompt_target_identifier request)
            (orchestrator_identifier request)
            response_type (Some response_type) error)
       <$> response_text_pieces |}.

(** ** Targets ([pyrit.prompt_target], an interface) *)

Module PromptTarget.
(** [send_prompt_async prompt_request] returns a response or [None], or
    raises.  A target is taken by what it answers to a request; the
    response it returns is an object of its own, not the request. *)
Record t := {
  get_identifier : StrDict;
  send_prompt_async :
    PromptRequestResponse → Result (option PromptRequestResponse);
}.
End PromptTarget.

(** [await target.send_prompt_async(prompt_request=request)]. *)
Definition await_target (target : PromptTarget.t)
    (request : PromptRequestResponse) : Async (option PromptRequestResponse) :=
  λ w, (PromptTarget.send_prompt_async target request, w).

(** ** [PromptNormalizer]: building, recording and sending a request *)

(** The tasks [piece.set_sha256_values_async()], one per piece, gathered:
    each task touches its own piece only, so the order in which they run
    does not show. *)
Definition hash_pieces `{Sha256} (request : PromptRequestResponse)
  : PromptRequestResponse :=
  {| request_pieces := set_sha256_values_async <$> request_pieces request |}.

(** [_calc_hash_and_add_request_to_memory]: every piece gets its hashes, then
    the request is added to the memory.  The pieces are mutated in place; the
    request as it is afterwards is returned. *)
Definition _calc_hash_and_add_request_to_memory `{Sha256}
    (self : PromptNormalizer) (argument : Argument)
    (request : PromptRequestResponse) : Async PromptRequestResponse :=
  let request := hash_pieces request in
  _ ← add_request_response_to_memory argument request;
  mret request.

Definition _build_prompt_request_response (self : PromptNormalizer)
    (seed_prompt_group : SeedPromptGroup) (conversation_id : option string)
    (request_converter_configurations : list PromptConverterConfiguration)
    (target : PromptTarget.t) (sequence : Z) (labels : option StrDict)
    (orchestrator_identifier : option StrDict) : Async PromptRequestResponse :=
  conversation_id ←
    (if truthy_str conversation_id
     then mret (default "" conversation_id)
     else uuid4);
  let entries :=
    (λ seed_prompt,
       PromptRequestPiece__init__ "user" (value seed_prompt) conversation_id
         sequence labels (metadata seed_prompt)
         (PromptTarget.get_identifier target) orchestrator_identifier
         (data_type seed_prompt) None "none")
    <$> prompts seed_prompt_group in
  let response := {| request_pieces := entries |} in
  mret (convert_values self request_converter_configurations response).

Definition send_prompt_async `{Sha256} (self : PromptNormalizer)
    (seed_prompt_group : SeedPromptGroup) (target : PromptTarget.t)
    (conversation_id : option string)
    (request_converter_configurations
       response_converter_configurations : list PromptConverterConfiguration)
    (sequence : Z) (labels : option StrDict)
    (orchestrator_identifier : option StrDict)
  : Async (option PromptRequestResponse) :=
  request ←
    _build_prompt_request_response self seed_prompt_group conversation_id
      request_converter_configurations target sequence labels
      orchestrator_identifier;
  response ←
    try_except
      (response ← await_target target request;
       _ ← _calc_hash_and_add_request_to_memory self arg_request request;
       mret response)
      (λ ex,
         match ex with
         | EmptyResponseException _ =>
             request ← _calc_hash_and_add_request_to_memory self arg_request request;
             piece ← first_piece request;
             mret (Some (construct_response_from_request piece [""] "text" "empty"))
         | _ =>
             request ← _calc_hash_and_add_request_to_memory self arg_request request;
             piece ← first_piece request;
             let error_response :=
               construct_response_from_request piece [str ex] "error" "processing" in
             _ ← _calc_hash_and_add_request_to_memory self arg_error_response
                   error_response;
             raise ex
         end);
  match response with
  | None => mret None
  | Some response =>
      let response :=
        convert_values self response_converter_configurations response in
      response ← _calc_hash_and_add_request_to_memory self arg_response response;
      mret (Some response)
  end.

(** ** [PromptNormalizer]: batches *)

Module NormalizerRequest.
Record t := {
  seed_prompt_group : SeedPromptGroup;
  request_converter_configurations : list PromptConverterConfiguration;
  response_converter_configurations : list PromptConverterConfiguration;
  conversation_id : option string;
}.
End NormalizerRequest.

(** The values that travel through [List[List[Any]]] and [**task_kwargs]. *)
Inductive Any :=
  | any_seed_prompt_group (group : SeedPromptGroup)
  | any_converter_configurations (configurations : list PromptConverterConfiguration)
  | any_optional_str (text : option string)
  | any_optional_dict (dict : option StrDict)
  | any_int (number : Z)
  | any_target (target : PromptTarget.t).

(** The keyword parameters of [send_prompt_async]. *)
Definition send_prompt_async_parameters : gset string :=
  {[ "seed_prompt_group"; "target"; "conversation_id";
     "request_converter_configurations"; "response_converter_configurations";
     "sequence"; "labels"; "orchestrator_identifier" ]}.

(** [self.send_prompt_async] called with [**kwargs]: the keyword-only parameters with
    their defaults.  [seed_prompt_group] and [target] are required; a
    keyword that is no parameter is a [TypeError]; so is, in this typed
    model, a value of another type than the parameter's annotation. *)
Definition call_send_prompt_async `{Sha256} (self : PromptNormalizer)
    (kwargs : gmap string Any) : Async (option PromptRequestResponse) :=
  if decide (dom kwargs ⊆ send_prompt_async_parameters) then
    match kwargs !! "seed_prompt_group", kwargs !! "target",
          default (any_optional_str None) (kwargs !! "conversation_id"),
          default (any_converter_configurations [])
            (kwargs !! "request_converter_configurations"),
          default (any_converter_configurations [])
            (kwargs !! "response_converter_configurations"),
          default (any_int (-1)) (kwargs !! "sequence"),
          default (any_optional_dict None) (kwargs !! "labels"),
          default (any_optional_dict None) (kwargs !! "orchestrator_identifier")
    with
    | Some (any_seed_prompt_group seed_prompt_group), Some (any_target target),
      any_optional_str conversation_id,
      any_converter_configurations request_converter_configurations,
      any_converter_configurations response_converter_configurations,
      any_int sequence, any_optional_dict labels,
      any_optional_dict orchestrator_identifier =>
        send_prompt_async self seed_prompt_group target conversation_id
          request_converter_configurations response_converter_configurations
          sequence labels orchestrator_identifier
    | _, _, _, _, _, _, _, _ =>
        raise (TypeError "send_prompt_async() got a wrong argument")
    end
  else raise (TypeError "send_prompt_async() got an unexpected keyword argument").

(** The keyword arguments of the task for the item at [batch_index]:
    [task_kwargs] with [task_arguments[k]] bound to
    [items_to_batch[k][batch_index]] for every [k]. *)
Definition item_kwargs (items_to_batch : list (list Any))
    (task_arguments : list string) (task_kwargs : gmap string Any)
    (batch_index : nat) : option (gmap string Any) :=
  foldl
    (λ kwargs '(task_argument, items),
       kwargs ← kwargs;
       item ← items !! batch_index;
       Some (<[task_argument := item]> kwargs))
    (Some task_kwargs) (zip task_arguments items_to_batch).

(** The tasks of a batch complete one after another, in [completion_order];
    the result of the task for item [i] is written to slot [i] of the
    buffer. *)
Fixpoint run_in_completion_order {R} (task : nat → Async R)
    (completion_order : list nat) (buffer : list (option R))
  : Async (list (option R)) :=
  match completion_order with
  | [] => mret buffer
  | batch_index :: rest =>
      result ← task batch_index;
      run_in_completion_order task rest (<[batch_index := Some result]> buffer)
  end.

(** Modelled from the spec: [batch_task_async] ([pyrit.common.batch_helper],
    not part of the sources at hand) runs [task_func] once for every item,
    with the item's keyword arguments, [batch_size] of them at a time; it
    buffers the results by input position as the tasks complete and returns
    them in submission order.  The order in which the tasks complete is not
    the helper's to choose: it is the argument [completion_order].  A task
    that raises ends the batch with its exception (the return type is the
    list of responses).  [batch_size] bounds how many tasks are in flight and
    has no part in the result. *)
Definition batch_task_async {R} (completion_order : list nat)
    (prompt_target : PromptTarget.t) (batch_size : Z)
    (items_to_batch : list (list Any))
    (task_func : gmap string Any → Async R)
    (task_arguments : list string) (task_kwargs : gmap string Any)
  : Async (list R) :=
  let task batch_index :=
    match item_kwargs items_to_batch task_arguments task_kwargs batch_index with
    | Some kwargs => task_func kwargs
    | None => raise IndexError
    end in
  buffer ←
    run_in_completion_order task completion_order
      (replicate (length (default [] (head items_to_batch))) None);
  match mapM (M := option) Datatypes.id buffer with
  | Some responses => mret responses
  | None => raise (OtherException "RuntimeError" "a task did not complete")
  end.

Definition send_prompt_batch_to_target_async `{Sha256}
    (completion_order : list nat) (self : PromptNormalizer)
    (requests : list NormalizerRequest.t) (target : PromptTarget.t)
    (labels : option StrDict) (orchestrator_identifier : option StrDict)
    (batch_size : Z) : Async (list (option PromptRequestResponse)) :=
  let batch_items : list (list Any) :=
    [ (λ request, any_seed_prompt_group
                    (NormalizerRequest.seed_prompt_group request)) <$> requests;
      (λ request, any_converter_configurations
                    (NormalizerRequest.request_converter_configurations request))
        <$> requests;
      (λ request, any_converter_configurations
                    (NormalizerRequest.response_converter_configurations request))
        <$> requests;
      (λ request, any_optional_str
                    (NormalizerRequest.conversation_id request)) <$> requests ] in
  let batch_item_keys :=
    [ "seed_prompt_group";
      "request_converter_configurations";
      "response_converter_configurations";
      "conversation_id" ] in
  batch_task_async completion_order target batch_size batch_items
    (call_send_prompt_async self) batch_item_keys
    (<["target" := any_target target]>
       (<["labels" := any_optional_dict labels]>
          (<["orchestrator_identifier" := any_optional_dict orchestrator_identifier]>
             ∅))).

(** ** The properties, in the specification's words *)

(** A chain applies to a piece iff (its index set is empty or holds the
    piece's index) and (its type set is empty or holds the piece's current
    data type).  An absent set is an empty one. *)
Definition applies (converter_configuration : PromptConverterConfiguration)
    (piece_index : nat) (piece : PromptRequestPiece) : Prop :=
  (default [] (indexes_to_apply converter_configuration) = []
   ∨ Z.of_nat piece_index ∈ default [] (indexes_to_apply converter_configuration))
  ∧ (default [] (prompt_data_types_to_apply converter_configuration) = []
     ∨ converted_value_data_type piece
       ∈ default [] (prompt_data_types_to_apply converter_configuration)).

(** The converted value of a piece with its data type. *)
Definition converted (piece : PromptRequestPiece) : string * PromptDataType :=
  (converted_value piece, converted_value_data_type piece).

(** A converter in the specification's words:
    [convert(value, type) -> (value', type')], the output text and the output
    type of one call of the converter on a value and its type (with the
    normalizer's two tokens). *)
Definition converter_output (self : PromptNormalizer)
    (converter : PromptConverter.t) (input : string * PromptDataType)
  : string * PromptDataType :=
  (output_text
     (PromptConverter.convert_tokens_async converter input.1 input.2
        (_start_token self) (_end_token self)),
   output_type
     (PromptConverter.convert_tokens_async converter input.1 input.2
        (_start_token self) (_end_token self))).

(** The value and data type after the first [n] converters of a chain: the
    output of converter [n], value and type, is the input of converter
    [n + 1]. *)
Fixpoint chain_stage (self : PromptNormalizer) (chain : list PromptConverter.t)
    (input : string * PromptDataType) (n : nat) : string * PromptDataType :=
  match n with
  | 0 => input
  | S k =>
      match chain !! k with
      | Some converter => converter_output self converter (chain_stage self chain input k)
      | None => chain_stage self chain input k
      end
  end.

(** Everything of a piece but its converted value, its converted data type
    and its list of converter identifiers. *)
Definition same_frame (before after : PromptRequestPiece) : Prop :=
  role after = role before
  ∧ original_value after = original_value before
  ∧ original_value_data_type after = original_value_data_type before
  ∧ conversation_id after = conversation_id before
  ∧ sequence after = sequence before
  ∧ labels after = labels before
  ∧ prompt_metadata after = prompt_metadata before
  ∧ prompt_target_identifier after = prompt_target_identifier before
  ∧ orchestrator_identifier after = orchestrator_identifier before
  ∧ response_error after = response_error before
  ∧ original_value_sha256 after = original_value_sha256 before
  ∧ converted_value_sha256 after = converted_value_sha256 before.

(** The stored hash of a piece is the hash of its converted value. *)
Definition hash_matches `{Sha256} (piece : PromptRequestPiece) : Prop :=
  converted_value_sha256 piece = Some (sha256 (converted_value piece)).

Definition memory_hashes_match `{Sha256} (w : World) : Prop :=
  Forall (λ write, Forall hash_matches (request_pieces (stored write))) (memory w).

(** The writes made for one variable of the caller. *)
Definition writes_for (argument : Argument) (writes : list MemoryWrite)
  : list MemoryWrite :=
  filter (λ write, written_for write = argument) writes.

(** A seed prompt as a request piece carries it. *)
Definition carries (conversation : string) (seed_prompt : SeedPrompt)
    (piece : PromptRequestPiece) : Prop :=
  role piece = "user"
  ∧ original_value piece = value seed_prompt
  ∧ original_value_data_type piece = data_type seed_prompt
  ∧ prompt_metadata piece = metadata seed_prompt
  ∧ conversation_id piece = conversation.

(** The dispatch of one request of a batch. *)
Definition dispatch `{Sha256} (self : PromptNormalizer) (target : PromptTarget.t)
    (labels orchestrator_identifier : option StrDict)
    (request : NormalizerRequest.t) : Async (option PromptRequestResponse) :=
  send_prompt_async self
    (NormalizerRequest.seed_prompt_group request) target
    (NormalizerRequest.conversation_id request)
    (NormalizerRequest.request_converter_configurations request)
    (NormalizerRequest.response_converter_configurations request)
    (-1) labels orchestrator_identifier.

(** ** Sample objects *)

Definition sample_sha256 : Sha256 := λ text, "sha256:" +:+ text.

Definition sample_normalizer : PromptNormalizer :=
  {| _start_token := "<<"; _end_token := ">>"; id := "normalizer-1" |}.

Definition sample_world : World :=
  {| memory := [];
     uuid4_source := λ n, "uuid-" +:+ pretty n;
     uuid4_calls := 0 |}.

Definition sample_group : SeedPromptGroup :=
  {| prompts :=
       [ {| value := "a"; data_type := "text"; metadata := None |};
         {| value := "b"; data_type := "text"; metadata := None |};
         {| value := "c"; data_type := "image_path"; metadata := None |} ] |}.

(** A converter that appends an exclamation mark, and one that doubles the
    text. *)
Definition exclaim : PromptConverter.t :=
  {| PromptConverter.get_identifier := {[ "__type__" := "ExclaimConverter" ]};
     PromptConverter.convert_tokens_async prompt input_type _ _ :=
       {| output_text := prompt +:+ "!"; output_type := input_type |} |}.

Definition double : PromptConverter.t :=
  {| PromptConverter.get_identifier := {[ "__type__" := "DoubleConverter" ]};
     PromptConverter.convert_tokens_async prompt input_type _ _ :=
       {| output_text := prompt +:+ prompt; output_type := "text" |} |}.

Definition text_only (chain : list PromptConverter.t) : PromptConverterConfiguration :=
  {| converters := chain;
     indexes_to_apply := None;
     prompt_data_types_to_apply := Some ["text"] |}.

Definition sample_request : PromptRequestResponse :=
  {| request_pieces :=
       [ PromptRequestPiece__init__ "user" "a" "conversation-1" (-1) None None
           ∅ None "text" None "none";
         PromptRequestPiece__init__ "user" "c" "conversation-1" (-1) None None
           ∅ None "image_path" None "none" ] |}.

(** Targets: one that answers every piece with its own text, one that
    returns nothing (as a target that only writes the prompt out does), one
    that signals an empty response, and one that fails. *)
Definition echo_target : PromptTarget.t :=
  {| PromptTarget.get_identifier := {[ "__type__" := "EchoTarget" ]};
     PromptTarget.send_prompt_async request :=
       Returned (Some
         {| request_pieces :=
              (λ piece,
                 PromptRequestPiece__init__ "assistant" (converted_value piece)
                   (conversation_id piece) (-1) (labels piece) None
                   (prompt_target_identifier piece)
                   (orchestrator_identifier piece) "text" None "none")
              <$> request_pieces request |}) |}.

Definition text_target : PromptTarget.t :=
  {| PromptTarget.get_identifier := {[ "__type__" := "TextTarget" ]};
     PromptTarget.send_prompt_async _ := Returned None |}.

Definition empty_target : PromptTarget.t :=
  {| PromptTarget.get_identifier := {[ "__type__" := "EmptyTarget" ]};
     PromptTarget.send_prompt_async _ :=
       Raised (EmptyResponseException "Status Code: 204, Message: No Content") |}.

Definition failing_target : PromptTarget.t :=
  {| PromptTarget.get_identifier := {[ "__type__" := "FailingTarget" ]};
     PromptTarget.send_prompt_async _ :=
       Raised (OtherException "Failure" "quota exceeded") |}.

Definition sample_requests : list NormalizerRequest.t :=
  [ {| NormalizerRequest.seed_prompt_group := sample_group;
       NormalizerRequest.request_converter_configurations := [text_only [exclaim]];
       NormalizerRequest.response_converter_configurations := [];
       NormalizerRequest.conversation_id := Some "conversation-0" |};
    {| NormalizerRequest.seed_prompt_group :=
         {| prompts := [ {| value := "b"; data_type := "text"; metadata := None |} ] |};
       NormalizerRequest.request_converter_configurations := [];
       NormalizerRequest.response_converter_configurations := [text_only [double]];
       NormalizerRequest.conversation_id := None |};
    {| NormalizerRequest.seed_prompt_group := sample_group;
       NormalizerRequest.request_converter_configurations := [];
       NormalizerRequest.response_converter_configurations := [];
       NormalizerRequest.conversation_id := Some "conversation-2" |} ].

(** ** [PromptNormalizer]: construction, and a piece through all chains *)

(** The defaults of [__init__]'s [start_token] and [end_token]. *)
Definition default_start_token : string := "⟪".
Definition default_end_token : string := "⟫".

(** [PromptNormalizer.__init__]: the tokens are kept and the normalizer gets
    a uuid of its own.  ([self._memory] is the central memory, which is the
    memory of the world here.) *)
Definition PromptNormalizer__init__ (start_token end_token : string)
  : Async PromptNormalizer :=
  id ← uuid4;
  mret {| _start_token := start_token; _end_token := end_token; id := id |}.

(** What the inner loop bodies of [convert_values] do to the piece at one
    index, one configuration after the other. *)
Definition convert_piece_through (self : PromptNormalizer)
    (converter_configurations : list PromptConverterConfiguration)
    (piece_index : nat) (piece : PromptRequestPiece) : PromptRequestPiece :=
  foldl
    (λ piece converter_configuration,
       convert_piece self converter_configuration piece_index piece)
    piece converter_configurations.

(** A converter that renders text as an image and returns the path. *)
Definition render : PromptConverter.t :=
  {| PromptConverter.get_identifier := {[ "__type__" := "RenderConverter" ]};
     PromptConverter.convert_tokens_async prompt input_type _ _ :=
       {| output_text := prompt +:+ ".png"; output_type := "image_path" |} |}.

(** * Properties *)

(** ** Converter chains *)

(** The guards of the loop let a piece through exactly when the chain
    applies to it. *)
Lemma skipped_false_iff converter_configuration piece_index piece :
  skipped converter_configuration piece_index piece = false
  ↔ applies converter_configuration piece_index piece.
Proof.
  unfold skipped, applies, py_in.
  destruct (indexes_to_apply converter_configuration) as [[|index indexes]|];
    destruct (prompt_data_types_to_apply converter_configuration) as [[|type types]|];
    simpl; repeat case_bool_decide; simpl; intuition congruence.
Qed.

Lemma skipped_true_iff converter_configuration piece_index piece :
  skipped converter_configuration piece_index piece = true
  ↔ ¬ applies converter_configuration piece_index piece.
Proof.
  rewrite <- skipped_false_iff.
  destruct (skipped converter_configuration piece_index piece); naive_solver.
Qed.

Lemma convert_piece_applies self converter_configuration piece_index piece :
  applies converter_configuration piece_index piece →
  convert_piece self converter_configuration piece_index piece
  = apply_converters self converter_configuration piece.
Proof.
  intros Happlies. apply skipped_false_iff in Happlies.
  unfold convert_piece. by rewrite Happlies.
Qed.

Lemma convert_piece_excluded self converter_configuration piece_index piece :
  ¬ applies converter_configuration piece_index piece →
  convert_piece self converter_configuration piece_index piece = piece.
Proof.
  intros Hexcluded. apply skipped_true_iff in Hexcluded.
  unfold convert_piece. by rewrite Hexcluded.
Qed.

Lemma convert_values_cons self converter_configuration converter_configurations
    request_response :
  convert_values self (converter_configuration :: converter_configurations)
    request_response
  = convert_values self converter_configurations
      {| request_pieces :=
           imap (convert_piece self converter_configuration)
             (request_pieces request_response) |}.
Proof. done. Qed.

Lemma lookup_convert_values_one self converter_configuration request_response i :
  request_pieces (convert_values self [converter_configuration] request_response) !! i
  = convert_piece self converter_configuration i
    <$> request_pieces request_response !! i.
Proof. simpl. apply list_lookup_imap. Qed.


(** The loop over the converters of a chain reaches stage [length chain]. *)
Lemma chain_stage_app self chain rest input n :
  (n ≤ length chain)%nat →
  chain_stage self (chain ++ rest) input n = chain_stage self chain input n.
Proof.
  induction n as [|n IH]; intros Hn; [done|].
  simpl. rewrite IH by lia.
  rewrite lookup_app_l by lia. done.
Qed.

Lemma foldl_convert_step_stage self chain input :
  foldl (convert_step self) input chain
  = chain_stage self chain input (length chain).
Proof.
  induction chain as [|converter chain IH] using rev_ind; [done|].
  rewrite foldl_app, length_app. simpl.
  replace (length chain + 1) with (S (length chain)) by lia. simpl.
  rewrite lookup_app_r, Nat.sub_diag by lia. simpl.
  rewrite chain_stage_app by lia. by rewrite IH.
Qed.

Lemma converted_apply_converters self converter_configuration piece :
  converted (apply_converters self converter_configuration piece)
  = chain_stage self (converters converter_configuration) (converted piece)
      (length (converters converter_configuration)).
Proof.
  unfold converted, apply_converters. simpl.
  rewrite <- foldl_convert_step_stage.
  by destruct (foldl _ _ _).
Qed.

Lemma same_frame_refl piece : same_frame piece piece.
Proof. by repeat split. Qed.

Lemma same_frame_trans first second third :
  same_frame first second → same_frame second third → same_frame first third.
Proof. unfold same_frame. intros H12 H23. destruct_and!. repeat split; congruence. Qed.

Lemma convert_piece_same_frame self converter_configuration piece_index piece :
  same_frame piece (convert_piece self converter_configuration piece_index piece).
Proof.
  unfold convert_piece.
  destruct (skipped _ _ _); [apply same_frame_refl|].
  by repeat split.
Qed.

Lemma convert_values_same_frame self converter_configurations :
  ∀ request_response,
    Forall2 same_frame (request_pieces request_response)
      (request_pieces (convert_values self converter_configurations request_response)).
Proof.
  induction converter_configurations as [|configuration configurations IH];
    intros request_response.
  - simpl. apply Forall_Forall2_diag, Forall_forall.
    intros piece _. apply same_frame_refl.
  - rewrite convert_values_cons.
    eapply Forall2_trans; [apply same_frame_trans| |apply IH].
    simpl. apply Forall2_same_length_lookup_2; [by rewrite length_imap|].
    intros i before after Hbefore Hafter.
    rewrite list_lookup_imap, Hbefore in Hafter. simplify_eq/=.
    apply convert_piece_same_frame.
Qed.

(** ** Building a request *)

Lemma length_convert_values self converter_configurations request_response :
  length (request_pieces (convert_values self converter_configurations request_response))
  = length (request_pieces request_response).
Proof.
  symmetry. eapply Forall2_length, convert_values_same_frame.
Qed.

(** The build never raises and never writes to the memory; it draws one
    uuid when it is given no conversation. *)
Lemma build_run self seed_prompt_group conversation_id
    request_converter_configurations target sequence labels
    orchestrator_identifier w :
  ∃ conversation w1,
    _build_prompt_request_response self seed_prompt_group conversation_id
      request_converter_configurations target sequence labels
      orchestrator_identifier w
    = (Returned
         (convert_values self request_converter_configurations
            {| request_pieces :=
                 (λ seed_prompt,
                    PromptRequestPiece__init__ "user" (value seed_prompt)
                      conversation sequence labels (metadata seed_prompt)
                      (PromptTarget.get_identifier target)
                      orchestrator_identifier (data_type seed_prompt) None "none")
                 <$> prompts seed_prompt_group |}), w1)
    ∧ memory w1 = memory w
    ∧ (truthy_str conversation_id = true →
       conversation_id = Some conversation ∧ w1 = w)
    ∧ (truthy_str conversation_id = false →
       conversation = uuid4_source w (uuid4_calls w)
       ∧ uuid4_calls w1 = S (uuid4_calls w)).
Proof.
  unfold _build_prompt_request_response, mbind, Async_bind.
  destruct (truthy_str conversation_id) eqn:Htruthy.
  - exists (default "" conversation_id), w. repeat split; try done.
    by destruct conversation_id as [[|]|].
  - by exists (uuid4_source w (uuid4_calls w)), (uuid4 w).2.
Qed.

Lemma build_memory self seed_prompt_group conversation_id
    request_converter_configurations target sequence labels
    orchestrator_identifier w request w1 :
  _build_prompt_request_response self seed_prompt_group conversation_id
    request_converter_configurations target sequence labels
    orchestrator_identifier w = (Returned request, w1) →
  memory w1 = memory w
  ∧ length (request_pieces request) = length (prompts seed_prompt_group).
Proof.
  intros Hbuild.
  destruct (build_run self seed_prompt_group conversation_id
              request_converter_configurations target sequence labels
              orchestrator_identifier w)
    as (conversation & w1' & Hrun & Hmemory & _).
  rewrite Hrun in Hbuild. simplify_eq.
  split; [done|].
  rewrite length_convert_values. simpl. by rewrite length_fmap.
Qed.

(** ** Sending a request *)

Lemma calc_hash_run `{Sha256} self argument request w :
  _calc_hash_and_add_request_to_memory self argument request w
  = (Returned (hash_pieces request), written argument (hash_pieces request) w).
Proof. done. Qed.

(** [send_prompt_async] after the build, by what the target does. *)
Lemma send_prompt_async_run `{Sha256} self seed_prompt_group target
    conversation_id request_converter_configurations
    response_converter_configurations sequence labels orchestrator_identifier
    w request w1 :
  _build_prompt_request_response self seed_prompt_group conversation_id
    request_converter_configurations target sequence labels
    orchestrator_identifier w = (Returned request, w1) →
  send_prompt_async self seed_prompt_group target conversation_id
    request_converter_configurations response_converter_configurations
    sequence labels orchestrator_identifier w
  = let recorded := written arg_request (hash_pieces request) w1 in
    match PromptTarget.send_prompt_async target request with
    | Returned None => (Returned None, recorded)
    | Returned (Some response) =>
        let response :=
          hash_pieces (convert_values self response_converter_configurations response) in
        (Returned (Some response), written arg_response response recorded)
    | Raised ex =>
        match request_pieces (hash_pieces request) with
        | [] => (Raised IndexError, recorded)
        | piece :: _ =>
            match ex with
            | EmptyResponseException _ =>
                let response :=
                  hash_pieces
                    (convert_values self response_converter_configurations
                       (construct_response_from_request piece [""] "text" "empty")) in
                (Returned (Some response), written arg_response response recorded)
            | _ =>
                (Raised ex,
                 written arg_error_response
                   (hash_pieces
                      (construct_response_from_request piece [str ex] "error"
                         "processing"))
                   recorded)
            end
        end
    end.
Proof.
  intros Hbuild.
  unfold send_prompt_async, mbind, Async_bind at 1. rewrite Hbuild.
  unfold try_except, mbind, Async_bind, await_target, first_piece, mret,
    Async_ret, raise.
  destruct (PromptTarget.send_prompt_async target request)
    as [[response|]|[message|class_name message]];
    rewrite ?calc_hash_run; try done;
    by destruct (request_pieces (hash_pieces request)).
Qed.

Lemma hash_pieces_matches `{Sha256} request :
  Forall hash_matches (request_pieces (hash_pieces request)).
Proof.
  unfold hash_pieces. simpl. apply Forall_fmap, Forall_forall.
  by intros piece _.
Qed.

Lemma converted_hash_pieces `{Sha256} request :
  converted <$> request_pieces (hash_pieces request)
  = converted <$> request_pieces request.
Proof.
  unfold hash_pieces. simpl. rewrite <- list_fmap_compose.
  by apply list_fmap_ext.
Qed.

Lemma written_hashes_match `{Sha256} argument request w :
  memory_hashes_match w →
  memory_hashes_match (written argument (hash_pieces request) w).
Proof.
  unfold memory_hashes_match, written. simpl. intros Hw.
  apply Forall_app. split; [done|].
  apply Forall_singleton. simpl. apply hash_pieces_matches.
Qed.

(** ** Batches *)

(** When the tasks of a batch have all returned, the slot of every task that
    ran holds what that task returned, and the other slots are as they
    were. *)
Lemma run_in_completion_order_returned {R} (task : nat → Async R)
    completion_order :
  ∀ buffer w filled w',
    run_in_completion_order task completion_order buffer w = (Returned filled, w') →
    length filled = length buffer
    ∧ ∀ j,
        (j ∈ completion_order → (j < length buffer)%nat →
         ∃ result s s',
           filled !! j = Some (Some result) ∧ task j s = (Returned result, s'))
        ∧ (j ∉ completion_order → filled !! j = buffer !! j).
Proof.
  induction completion_order as [|i rest IH]; intros buffer w filled w' Hrun.
  - injection Hrun as <- <-. split; [done|].
    intros j. split; [by intros ?%elem_of_nil|done].
  - simpl in Hrun. unfold mbind, Async_bind in Hrun.
    destruct (task i w) as [[result|ex] w1] eqn:Htask; [|discriminate Hrun].
    apply IH in Hrun as [Hlength Hslots].
    rewrite length_insert in Hlength. split; [done|].
    intros j. destruct (Hslots j) as [Hran Hleft]. split.
    + intros Hj Hbound. destruct (decide (j ∈ rest)) as [Hrest|Hrest].
      * apply Hran; [done|]. by rewrite length_insert.
      * apply elem_of_cons in Hj as [->|]; [|done].
        exists result, w, w1. split; [|done].
        rewrite Hleft by done. by apply list_lookup_insert_eq.
    + intros Hj. apply not_elem_of_cons in Hj as [Hne Hrest].
      rewrite Hleft by done. by apply list_lookup_insert_ne.
Qed.

(** The tasks of a batch all return when none of them raises. *)
Lemma run_in_completion_order_returns {R} (task : nat → Async R)
    completion_order :
  (∀ i s, i ∈ completion_order → ∃ result s', task i s = (Returned result, s')) →
  ∀ buffer w,
    ∃ filled w',
      run_in_completion_order task completion_order buffer w = (Returned filled, w').
Proof.
  induction completion_order as [|i rest IH]; intros Hreturns buffer w.
  - by exists buffer, w.
  - destruct (Hreturns i w) as (result & w1 & Htask); [by left|].
    destruct (IH (λ j s Hj, Hreturns j s (list_elem_of_further _ _ _ Hj))
                 (<[i := Some result]> buffer) w1)
      as (filled & w' & Hrun).
    exists filled, w'. simpl. unfold mbind, Async_bind. by rewrite Htask.
Qed.

(** The keyword arguments the batch builds for the request at index [i]. *)
Lemma batch_item_kwargs (requests : list NormalizerRequest.t) task_kwargs i request :
  requests !! i = Some request →
  item_kwargs
    [ (λ request, any_seed_prompt_group
                    (NormalizerRequest.seed_prompt_group request)) <$> requests;
      (λ request, any_converter_configurations
                    (NormalizerRequest.request_converter_configurations request))
        <$> requests;
      (λ request, any_converter_configurations
                    (NormalizerRequest.response_converter_configurations request))
        <$> requests;
      (λ request, any_optional_str
                    (NormalizerRequest.conversation_id request)) <$> requests ]
    [ "seed_prompt_group";
      "request_converter_configurations";
      "response_converter_configurations";
      "conversation_id" ]
    task_kwargs i
  = Some
      (<["conversation_id" :=
           any_optional_str (NormalizerRequest.conversation_id request)]>
         (<["response_converter_configurations" :=
              any_converter_configurations
                (NormalizerRequest.response_converter_configurations request)]>
            (<["request_converter_configurations" :=
                 any_converter_configurations
                   (NormalizerRequest.request_converter_configurations request)]>
               (<["seed_prompt_group" :=
                    any_seed_prompt_group
                      (NormalizerRequest.seed_prompt_group request)]>
                  task_kwargs)))).
Proof.
  intros Hrequest. unfold item_kwargs. simpl.
  rewrite !list_lookup_fmap, Hrequest. done.
Qed.

(** Called with the keyword arguments of a batch item, [send_prompt_async]
    is the dispatch of that request. *)
Lemma call_send_prompt_async_item `{Sha256} self target labels
    orchestrator_identifier request :
  call_send_prompt_async self
    (<["conversation_id" :=
         any_optional_str (NormalizerRequest.conversation_id request)]>
       (<["response_converter_configurations" :=
            any_converter_configurations
              (NormalizerRequest.response_converter_configurations request)]>
          (<["request_converter_configurations" :=
               any_converter_configurations
                 (NormalizerRequest.request_converter_configurations request)]>
             (<["seed_prompt_group" :=
                  any_seed_prompt_group
                    (NormalizerRequest.seed_prompt_group request)]>
                (<["target" := any_target target]>
                   (<["labels" := any_optional_dict labels]>
                      (<["orchestrator_identifier" :=
                           any_optional_dict orchestrator_identifier]> ∅)))))))
  = dispatch self target labels orchestrator_identifier request.
Proof.
  unfold call_send_prompt_async.
  case_decide as Hparameters; [by simplify_map_eq|].
  exfalso. apply Hparameters.
  eapply bool_decide_unpack. vm_compute. exact I.
Qed.

(** * Main results *)

(** C6: a chain that applies to a piece runs its converters in the declared
    order.  The first converter is called on the piece's converted value and
    data type; converter [n + 1] is called on the output text and the output
    type of converter [n]; the piece ends with the output text and type of
    the last converter; and the identifiers of the converters are appended
    to the piece's list in chain order.  So for two converters that do not
    commute on the piece's value and type, the chain of the one then the
    other and the chain the other way round leave different outputs in the
    piece. *)
Theorem convert_values_runs_chain_in_order self request_response i piece :
  request_pieces request_response !! i = Some piece →
  (∀ converter_configuration,
     applies converter_configuration i piece →
     ∃ piece' stages,
       request_pieces
         (convert_values self [converter_configuration] request_response) !! i
       = Some piece'
       ∧ length stages = S (length (converters converter_configuration))
       ∧ stages !! 0%nat
         = Some (converted_value piece, converted_value_data_type piece)
       ∧ (∀ n converter value type,
            converters converter_configuration !! n = Some converter →
            stages !! n = Some (value, type) →
            stages !! S n
            = Some
                (output_text
                   (PromptConverter.convert_tokens_async converter value type
                      (_start_token self) (_end_token self)),
                 output_type
                   (PromptConverter.convert_tokens_async converter value type
                      (_start_token self) (_end_token self))))
       ∧ stages !! length (converters converter_configuration)
         = Some (converted_value piece', converted_value_data_type piece')
       ∧ converted piece'
         = chain_stage self (converters converter_configuration)
             (converted piece) (length (converters converter_configuration))
       ∧ converter_identifiers piece'
         = converter_identifiers piece
           ++ (PromptConverter.get_identifier
               <$> converters converter_configuration))
  ∧ (∀ first second indexes data_types,
       applies
         {| converters := [first; second];
            indexes_to_apply := indexes;
            prompt_data_types_to_apply := data_types |} i piece →
       converter_output self second (converter_output self first (converted piece))
       ≠ converter_output self first (converter_output self second (converted piece)) →
       converted
         <$> request_pieces
               (convert_values self
                  [{| converters := [first; second];
                      indexes_to_apply := indexes;
                      prompt_data_types_to_apply := data_types |}]
                  request_response) !! i
       ≠ converted
           <$> request_pieces
                 (convert_values self
                    [{| converters := [second; first];
                        indexes_to_apply := indexes;
                        prompt_data_types_to_apply := data_types |}]
                    request_response) !! i).
Proof.
  intros Hpiece. split.
  - intros converter_configuration Happlies.
    set (chain := converters converter_configuration).
    exists (apply_converters self converter_configuration piece),
      (chain_stage self chain (converted piece) <$> seq 0 (S (length chain))).
    pose proof (converted_apply_converters self converter_configuration piece)
      as Hlast.
    fold chain in Hlast.
    split; [|split; [|split; [|split; [|split; [|split]]]]].
    + rewrite lookup_convert_values_one, Hpiece. simpl.
      by rewrite convert_piece_applies.
    + by rewrite length_fmap, length_seq.
    + done.
    + intros n converter value type Hconverter Hstage.
      apply lookup_lt_Some in Hconverter as Hn.
      rewrite list_lookup_fmap, lookup_seq_lt in Hstage by (fold chain in Hn; lia).
      rewrite list_lookup_fmap, lookup_seq_lt by (fold chain in Hn; lia).
      simpl in Hstage |- *. injection Hstage as Hstage.
      fold chain in Hconverter. rewrite Hconverter, Hstage. done.
    + rewrite list_lookup_fmap, lookup_seq_lt by lia.
      cbn [fmap option_fmap option_map Nat.add]. by rewrite <- Hlast.
    + done.
    + done.
  - intros first second indexes data_types Happlies Hdiffer.
    rewrite !lookup_convert_values_one, Hpiece. simpl.
    rewrite !convert_piece_applies by done.
    rewrite !converted_apply_converters. simpl. congruence.
Qed.


(** C10: [convert_values] changes nothing of a piece but its converted
    value, its converted data type and its list of converter identifiers:
    there are as many pieces after the call as before, and each has the
    original value, original data type, role, conversation identifier,
    sequence number, labels and metadata (and target and orchestrator
    identifiers, error kind and hashes) it had, whether or not a chain
    applied to it. *)
Theorem convert_values_frame self converter_configurations request_response :
  Forall2 same_frame
    (request_pieces request_response)
    (request_pieces
       (convert_values self converter_configurations request_response))
  ∧ length
      (request_pieces
         (convert_values self converter_configurations request_response))
    = length (request_pieces request_response)
  ∧ ∀ i before,
      request_pieces request_response !! i = Some before →
      ∃ after,
        request_pieces
          (convert_values self converter_configurations request_response) !! i
        = Some after
        ∧ role after = role before
        ∧ original_value after = original_value before
        ∧ original_value_data_type after = original_value_data_type before
        ∧ conversation_id after = conversation_id before
        ∧ sequence after = sequence before
        ∧ labels after = labels before
        ∧ prompt_metadata after = prompt_metadata before.
Proof.
  pose proof (convert_values_same_frame self converter_configurations
                request_response) as Hframe.
  split; [done|]. split; [apply length_convert_values|].
  intros i before Hbefore.
  destruct (Forall2_lookup_l _ _ _ _ _ Hframe Hbefore) as (after & Hafter & Hsame).
  exists after. split; [done|].
  unfold same_frame in Hsame. by destruct_and!.
Qed.

(** C4: the request builder returns a request with one piece per seed
    prompt, in the order of the group (so as many pieces as the group has
    prompts, and at least one for a group that is not empty); every piece has
    the role "user", the value, data type and metadata of its seed prompt,
    and the one conversation identifier of the call: the caller's, or a newly
    drawn uuid when the caller gives none.  With no request converter the
    converted value and data type are the seed prompt's too. *)
Theorem build_one_piece_per_seed_prompt self seed_prompt_group conversation_id
    request_converter_configurations target sequence labels
    orchestrator_identifier w :
  ∃ request conversation w1,
    _build_prompt_request_response self seed_prompt_group conversation_id
      request_converter_configurations target sequence labels
      orchestrator_identifier w = (Returned request, w1)
    ∧ length (request_pieces request) = length (prompts seed_prompt_group)
    ∧ (prompts seed_prompt_group ≠ [] ↔ request_pieces request ≠ [])
    ∧ Forall2 (carries conversation)
        (prompts seed_prompt_group) (request_pieces request)
    ∧ (truthy_str conversation_id = true →
       conversation_id = Some conversation ∧ w1 = w)
    ∧ (truthy_str conversation_id = false →
       conversation = uuid4_source w (uuid4_calls w)
       ∧ uuid4_calls w1 = S (uuid4_calls w)
       ∧ memory w1 = memory w)
    ∧ (conversation_id = None → truthy_str conversation_id = false)
    ∧ (request_converter_configurations = [] →
       Forall2
         (λ seed_prompt piece,
            converted piece = (value seed_prompt, data_type seed_prompt)
            ∧ converter_identifiers piece = [])
         (prompts seed_prompt_group) (request_pieces request)).
Proof.
  destruct (build_run self seed_prompt_group conversation_id
              request_converter_configurations target sequence labels
              orchestrator_identifier w)
    as (conversation & w1 & Hrun & Hmemory & Hgiven & Hdrawn).
  eexists _, conversation, w1. split; [exact Hrun|].
  destruct (build_memory _ _ _ _ _ _ _ _ _ _ _ Hrun) as [_ Hlength].
  split; [done|]. split.
  { rewrite <- !length_zero_iff_nil, Hlength. done. }
  split.
  { eapply (Forall2_trans (carries conversation) same_frame);
      [| |apply (convert_values_same_frame self _ {| request_pieces := _ |})].
    - intros seed_prompt built piece Hbuilt Hframe.
      unfold same_frame in Hframe. unfold carries in *.
      destruct_and!. repeat split; congruence.
    - apply Forall2_fmap_r, Forall_Forall2_diag, Forall_forall.
      by intros seed_prompt _. }
  split; [done|]. split.
  { intros Hnone. by destruct (Hdrawn Hnone). }
  split; [by intros ->|].
  intros ->. simpl. apply Forall2_fmap_r, Forall_Forall2_diag, Forall_forall.
  by intros seed_prompt _.
Qed.

(** C5: every piece in the memory has, as its stored hash, the hash of its
    converted value as it was when the piece was stored.
    [_calc_hash_and_add_request_to_memory] computes the hashes of the pieces,
    without touching their converted values, and then appends the request to
    the memory, whose earlier records stay as they are; and
    [send_prompt_async], whatever its outcome, only appends records whose
    hashes match. *)
Theorem stored_hash_is_hash_of_converted_value `{Sha256} self w :
  memory_hashes_match w →
  (∀ argument request,
     ∃ w',
       _calc_hash_and_add_request_to_memory self argument request w
       = (Returned (hash_pieces request), w')
       ∧ memory w'
         = memory w
           ++ [{| written_for := argument; stored := hash_pieces request |}]
       ∧ Forall hash_matches (request_pieces (hash_pieces request))
       ∧ converted <$> request_pieces (hash_pieces request)
         = converted <$> request_pieces request
       ∧ memory_hashes_match w')
  ∧ (∀ seed_prompt_group target conversation_id
       request_converter_configurations response_converter_configurations
       sequence labels orchestrator_identifier,
       ∃ outcome w' later,
         send_prompt_async self seed_prompt_group target conversation_id
           request_converter_configurations response_converter_configurations
           sequence labels orchestrator_identifier w = (outcome, w')
         ∧ memory w' = memory w ++ later
         ∧ memory_hashes_match w').
Proof.
  intros Hw. split.
  - intros argument request.
    exists (written argument (hash_pieces request) w).
    split; [apply calc_hash_run|]. split; [done|].
    split; [apply hash_pieces_matches|].
    split; [apply converted_hash_pieces|].
    by apply written_hashes_match.
  - intros seed_prompt_group target conversation_id
      request_converter_configurations response_converter_configurations
      sequence labels orchestrator_identifier.
    destruct (build_run self seed_prompt_group conversation_id
                request_converter_configurations target sequence labels
                orchestrator_identifier w)
      as (conversation & w1 & Hrun & Hmemory & _).
    assert (memory_hashes_match w1) as Hw1.
    { unfold memory_hashes_match. by rewrite Hmemory. }
    rewrite (send_prompt_async_run _ _ _ _ _ _ _ _ _ _ _ _ Hrun).
    cbv zeta.
    destruct (PromptTarget.send_prompt_async target _)
      as [[response|]|ex];
      [| |destruct (request_pieces (hash_pieces _)) as [|piece pieces];
          [|destruct ex as [message|class_name message]]];
      eexists _, _, _; (split; [reflexivity|]);
      (split; [|by repeat apply written_hashes_match]);
      simpl; rewrite Hmemory, <- ?(assoc_L (++)); reflexivity.
Qed.

(** C1: every call of [send_prompt_async] reaches the target with the built
    request and writes that request to the memory exactly once, first of all
    its writes, whether the target returns a response, returns nothing,
    signals an empty response or raises.  When the target raises another
    exception than the empty-response signal (and the request has a piece to
    answer), the call ends with that exception in a world where the request
    and the record of the failure are both in the memory already. *)
Theorem request_persisted_exactly_once `{Sha256} self seed_prompt_group target
    conversation_id request_converter_configurations
    response_converter_configurations sequence labels orchestrator_identifier w :
  ∃ request w1 outcome w2 new,
    _build_prompt_request_response self seed_prompt_group conversation_id
      request_converter_configurations target sequence labels
      orchestrator_identifier w = (Returned request, w1)
    ∧ send_prompt_async self seed_prompt_group target conversation_id
        request_converter_configurations response_converter_configurations
        sequence labels orchestrator_identifier w = (outcome, w2)
    ∧ memory w2 = memory w ++ new
    ∧ head new = Some {| written_for := arg_request; stored := hash_pieces request |}
    ∧ writes_for arg_request new
      = [{| written_for := arg_request; stored := hash_pieces request |}]
    ∧ (∀ ex,
         PromptTarget.send_prompt_async target request = Raised ex →
         (∀ message, ex ≠ EmptyResponseException message) →
         prompts seed_prompt_group ≠ [] →
         outcome = Raised ex
         ∧ ∃ failure,
             new = [ {| written_for := arg_request; stored := hash_pieces request |};
                     {| written_for := arg_error_response; stored := failure |} ]).
Proof.
  destruct (build_run self seed_prompt_group conversation_id
              request_converter_configurations target sequence labels
              orchestrator_identifier w)
    as (conversation & w1 & Hrun & Hmemory & _).
  destruct (build_memory _ _ _ _ _ _ _ _ _ _ _ Hrun) as [_ Hlength].
  set (request := convert_values _ _ _) in *.
  exists request, w1.
  rewrite (send_prompt_async_run _ _ _ _ _ _ _ _ _ _ _ _ Hrun).
  cbv zeta.
  destruct (PromptTarget.send_prompt_async target request)
    as [[response|]|ex] eqn:Htarget.
  - eexists _, _, [_; _]. split; [done|]. split; [done|]. split.
    { simpl. rewrite Hmemory, <- (assoc_L (++)). done. }
    split; [done|]. split; [done|]. by intros ex' [=].
  - eexists _, _, [_]. split; [done|]. split; [done|]. split.
    { simpl. by rewrite Hmemory. }
    split; [done|]. split; [done|]. by intros ex' [=].
  - assert (request_pieces (hash_pieces request) = []
            → prompts seed_prompt_group = []) as Hempty.
    { unfold hash_pieces. simpl. intros Hnil%fmap_nil_inv.
      apply length_zero_iff_nil. by rewrite <- Hlength, Hnil. }
    destruct (request_pieces (hash_pieces request)) as [|piece pieces].
    + eexists _, _, [_]. split; [done|]. split; [done|]. split.
      { simpl. by rewrite Hmemory. }
      split; [done|]. split; [done|].
      intros ex' _ _ Hprompts. by destruct Hprompts, Hempty.
    + destruct ex as [message|class_name message].
      * eexists _, _, [_; _]. split; [done|]. split; [done|]. split.
        { simpl. rewrite Hmemory, <- (assoc_L (++)). done. }
        split; [done|]. split; [done|].
        intros ex' [= <-] Hsignal. by destruct (Hsignal message).
      * eexists _, _, [_; _]. split; [done|]. split; [done|]. split.
        { simpl. rewrite Hmemory, <- (assoc_L (++)). done. }
        split; [done|]. split; [done|].
        intros ex' [= <-] _ _. split; [done|]. by eexists.
Qed.

(** The first piece of a built request, for a group that is not empty. *)
Lemma build_first_piece self seed_prompt_group conversation_id
    request_converter_configurations target sequence labels
    orchestrator_identifier w request w1 :
  _build_prompt_request_response self seed_prompt_group conversation_id
    request_converter_configurations target sequence labels
    orchestrator_identifier w = (Returned request, w1) →
  prompts seed_prompt_group ≠ [] →
  ∃ first, head (request_pieces request) = Some first.
Proof.
  intros Hbuild Hprompts.
  destruct (build_memory _ _ _ _ _ _ _ _ _ _ _ Hbuild) as [_ Hlength].
  destruct (request_pieces request) as [|first pieces]; [|by eexists].
  destruct Hprompts. by apply length_zero_iff_nil.
Qed.

(** Converters leave a response of one piece a response of one piece. *)
Lemma convert_values_one_piece self converter_configurations piece :
  ∃ piece',
    request_pieces
      (convert_values self converter_configurations {| request_pieces := [piece] |})
    = [piece']
    ∧ same_frame piece piece'.
Proof.
  pose proof (convert_values_same_frame self converter_configurations
                {| request_pieces := [piece] |}) as Hframe.
  simpl in Hframe.
  apply Forall2_cons_inv_l in Hframe as (piece' & rest & Hpiece & Hrest & ->).
  apply Forall2_nil_inv_l in Hrest as ->. by exists piece'.
Qed.

(** C2: when the target raises another exception than the empty-response
    signal, [send_prompt_async] writes the request to the memory, then an
    error response of one piece whose value is the text of the exception
    ([str(ex)]), of data type "error" and error kind "processing", and then
    raises that same exception.  (The call answers the first piece of the
    request: the seed prompt group is not empty.) *)
Theorem failure_is_recorded_then_raised `{Sha256} self seed_prompt_group target
    conversation_id_ request_converter_configurations
    response_converter_configurations sequence_ labels_ orchestrator_identifier_
    w request w1 ex :
  _build_prompt_request_response self seed_prompt_group conversation_id_
    request_converter_configurations target sequence_ labels_
    orchestrator_identifier_ w = (Returned request, w1) →
  PromptTarget.send_prompt_async target request = Raised ex →
  (∀ message, ex ≠ EmptyResponseException message) →
  prompts seed_prompt_group ≠ [] →
  ∃ w2 first error_piece,
    send_prompt_async self seed_prompt_group target conversation_id_
      request_converter_configurations response_converter_configurations
      sequence_ labels_ orchestrator_identifier_ w = (Raised ex, w2)
    ∧ head (request_pieces request) = Some first
    ∧ memory w2
      = memory w
        ++ [ {| written_for := arg_request; stored := hash_pieces request |};
             {| written_for := arg_error_response;
                stored := {| request_pieces := [error_piece] |} |} ]
    ∧ original_value error_piece = str ex
    ∧ converted_value error_piece = str ex
    ∧ original_value_data_type error_piece = "error"
    ∧ converted_value_data_type error_piece = "error"
    ∧ response_error error_piece = "processing"
    ∧ role error_piece = "assistant"
    ∧ conversation_id error_piece = conversation_id first
    ∧ hash_matches error_piece.
Proof.
  intros Hbuild Htarget Hsignal Hprompts.
  destruct (build_first_piece _ _ _ _ _ _ _ _ _ _ _ Hbuild Hprompts)
    as [first Hfirst].
  destruct (build_memory _ _ _ _ _ _ _ _ _ _ _ Hbuild) as [Hmemory _].
  rewrite (send_prompt_async_run _ _ _ _ _ _ _ _ _ _ _ _ Hbuild), Htarget.
  cbv zeta. unfold hash_pieces at 1. cbn [request_pieces].
  destruct (request_pieces request) as [|piece pieces]; simplify_eq/=.
  destruct ex as [message|class_name message]; [by destruct (Hsignal message)|].
  eexists _, first, _. split; [reflexivity|]. split; [done|]. split.
  { simpl. rewrite Hmemory, <- (assoc_L (++)). done. }
  by repeat split.
Qed.

(** C3: when the target signals an empty response, [send_prompt_async] does
    not raise.  It writes the request, with its hashes, to the memory; it
    makes a response of exactly one piece, of empty text and data type
    "text", marked with the error kind "empty"; and it writes that response
    (after the response converters, with its hashes) to the memory and
    returns it.  The response is still one piece of original value the empty
    text and error kind "empty"; with no response converter its converted
    value is the empty text too.  (The call answers the first piece of the
    request: the seed prompt group is not empty.) *)
Theorem empty_response_is_recorded_and_returned `{Sha256} self seed_prompt_group
    target conversation_id_ request_converter_configurations
    response_converter_configurations sequence_ labels_ orchestrator_identifier_
    w request w1 message :
  _build_prompt_request_response self seed_prompt_group conversation_id_
    request_converter_configurations target sequence_ labels_
    orchestrator_identifier_ w = (Returned request, w1) →
  PromptTarget.send_prompt_async target request
  = Raised (EmptyResponseException message) →
  prompts seed_prompt_group ≠ [] →
  ∃ w2 first synthesized response_piece,
    send_prompt_async self seed_prompt_group target conversation_id_
      request_converter_configurations response_converter_configurations
      sequence_ labels_ orchestrator_identifier_ w
    = (Returned (Some {| request_pieces := [response_piece] |}), w2)
    ∧ memory w2
      = memory w
        ++ [ {| written_for := arg_request; stored := hash_pieces request |};
             {| written_for := arg_response;
                stored := {| request_pieces := [response_piece] |} |} ]
    ∧ Forall hash_matches (request_pieces (hash_pieces request))
    ∧ head (request_pieces (hash_pieces request)) = Some first
    ∧ construct_response_from_request first [""] "text" "empty"
      = {| request_pieces := [synthesized] |}
    ∧ original_value synthesized = ""
    ∧ converted synthesized = ("", "text")
    ∧ response_error synthesized = "empty"
    ∧ {| request_pieces := [response_piece] |}
      = hash_pieces
          (convert_values self response_converter_configurations
             {| request_pieces := [synthesized] |})
    ∧ original_value response_piece = ""
    ∧ original_value_data_type response_piece = "text"
    ∧ response_error response_piece = "empty"
    ∧ role response_piece = "assistant"
    ∧ conversation_id response_piece = conversation_id first
    ∧ hash_matches response_piece
    ∧ (response_converter_configurations = [] →
       converted response_piece = ("", "text")).
Proof.
  intros Hbuild Htarget Hprompts.
  destruct (build_first_piece _ _ _ _ _ _ _ _ _ _ _ Hbuild Hprompts)
    as [first Hfirst].
  destruct (build_memory _ _ _ _ _ _ _ _ _ _ _ Hbuild) as [Hmemory _].
  rewrite (send_prompt_async_run _ _ _ _ _ _ _ _ _ _ _ _ Hbuild), Htarget.
  cbv zeta.
  pose proof (hash_pieces_matches request) as Hhashes.
  destruct (request_pieces request) as [|piece pieces] eqn:Hpieces; [done|].
  injection Hfirst as ->.
  assert (request_pieces (hash_pieces request)
          = set_sha256_values_async first
            :: (set_sha256_values_async <$> pieces)) as Hhashed.
  { unfold hash_pieces. simpl. by rewrite Hpieces. }
  rewrite Hhashed in Hhashes |- *.
  destruct (convert_values_one_piece self response_converter_configurations
              (PromptRequestPiece__init__ "assistant" ""
                 (conversation_id (set_sha256_values_async first)) (-1)
                 (labels (set_sha256_values_async first)) None
                 (prompt_target_identifier (set_sha256_values_async first))
                 (orchestrator_identifier (set_sha256_values_async first))
                 "text" (Some "text") "empty"))
    as (piece' & Hpiece' & Hframe).
  unfold same_frame in Hframe. simpl in Hframe. destruct_and!.
  assert (hash_pieces
            (convert_values self response_converter_configurations
               (construct_response_from_request
                  (set_sha256_values_async first) [""] "text" "empty"))
          = {| request_pieces := [set_sha256_values_async piece'] |})
    as Hresponse.
  { unfold hash_pieces, construct_response_from_request.
    simpl in *. by rewrite Hpiece'. }
  rewrite Hresponse.
  eexists _, (set_sha256_values_async first), _, (set_sha256_values_async piece').
  split; [reflexivity|]. split.
  { simpl. rewrite Hmemory, <- (assoc_L (++)). done. }
  split; [done|]. split; [done|]. split; [reflexivity|].
  do 3 (split; [done|]).
  split; [exact (eq_sym Hresponse)|].
  do 6 (split; [done|]).
  intros ->. simpl in Hpiece'. by injection Hpiece' as <-.
Qed.

(** C8: when the target returns without raising and what it returns is
    [None], [send_prompt_async] returns [None], a result with no piece, and
    the request is all the call has written to the memory: no response is
    recorded. *)
Theorem no_response_returns_none `{Sha256} self seed_prompt_group target
    conversation_id request_converter_configurations
    response_converter_configurations sequence labels orchestrator_identifier
    w request w1 :
  _build_prompt_request_response self seed_prompt_group conversation_id
    request_converter_configurations target sequence labels
    orchestrator_identifier w = (Returned request, w1) →
  PromptTarget.send_prompt_async target request = Returned None →
  ∃ w2,
    send_prompt_async self seed_prompt_group target conversation_id
      request_converter_configurations response_converter_configurations
      sequence labels orchestrator_identifier w = (Returned None, w2)
    ∧ memory w2
      = memory w
        ++ [{| written_for := arg_request; stored := hash_pieces request |}]
    ∧ writes_for arg_response (memory w2) = writes_for arg_response (memory w)
    ∧ writes_for arg_error_response (memory w2)
      = writes_for arg_error_response (memory w).
Proof.
  intros Hbuild Htarget.
  destruct (build_memory _ _ _ _ _ _ _ _ _ _ _ Hbuild) as [Hmemory _].
  rewrite (send_prompt_async_run _ _ _ _ _ _ _ _ _ _ _ _ Hbuild), Htarget.
  cbv zeta. eexists. split; [reflexivity|].
  simpl. rewrite Hmemory. split; [done|].
  unfold writes_for. rewrite !filter_app. simpl.
  by rewrite !app_nil_r.
Qed.

(** X1, the success path: when the target returns a response,
    [send_prompt_async] writes the request to the memory, runs the response
    converters over the response, writes the response with its hashes to the
    memory and returns it; with no response converter the converted values
    are the target's. *)
Theorem response_is_converted_recorded_and_returned `{Sha256} self
    seed_prompt_group target conversation_id request_converter_configurations
    response_converter_configurations sequence labels orchestrator_identifier
    w request w1 response :
  _build_prompt_request_response self seed_prompt_group conversation_id
    request_converter_configurations target sequence labels
    orchestrator_identifier w = (Returned request, w1) →
  PromptTarget.send_prompt_async target request = Returned (Some response) →
  ∃ w2 returned,
    send_prompt_async self seed_prompt_group target conversation_id
      request_converter_configurations response_converter_configurations
      sequence labels orchestrator_identifier w = (Returned (Some returned), w2)
    ∧ returned
      = hash_pieces (convert_values self response_converter_configurations response)
    ∧ memory w2
      = memory w
        ++ [ {| written_for := arg_request; stored := hash_pieces request |};
             {| written_for := arg_response; stored := returned |} ]
    ∧ Forall hash_matches (request_pieces returned)
    ∧ length (request_pieces returned) = length (request_pieces response)
    ∧ (response_converter_configurations = [] →
       converted <$> request_pieces returned
       = converted <$> request_pieces response).
Proof.
  intros Hbuild Htarget.
  destruct (build_memory _ _ _ _ _ _ _ _ _ _ _ Hbuild) as [Hmemory _].
  rewrite (send_prompt_async_run _ _ _ _ _ _ _ _ _ _ _ _ Hbuild), Htarget.
  cbv zeta. eexists _, _. split; [reflexivity|]. split; [reflexivity|].
  split.
  { simpl. rewrite Hmemory, <- (assoc_L (++)). done. }
  split; [apply hash_pieces_matches|]. split.
  { unfold hash_pieces. simpl.
    by rewrite length_fmap, length_convert_values. }
  intros ->. apply converted_hash_pieces.
Qed.

(** The worlds a batch goes through: the tasks run one after the other in
    completion order, each in the world the one before it left, and the slot
    of each task holds what it returned there. *)
Lemma run_in_completion_order_trace {R} (task : nat → Async R) completion_order :
  NoDup completion_order →
  ∀ buffer w filled w',
    (∀ i, i ∈ completion_order → (i < length buffer)%nat) →
    run_in_completion_order task completion_order buffer w = (Returned filled, w') →
    ∃ worlds,
      length worlds = S (length completion_order)
      ∧ worlds !! 0%nat = Some w
      ∧ worlds !! length completion_order = Some w'
      ∧ ∀ k i,
          completion_order !! k = Some i →
          ∃ result s s',
            worlds !! k = Some s
            ∧ worlds !! S k = Some s'
            ∧ task i s = (Returned result, s')
            ∧ filled !! i = Some (Some result).
Proof.
  induction completion_order as [|i rest IH];
    intros Hnodup buffer w filled w' Hbound Hrun.
  - injection Hrun as <- <-. exists [w]. by repeat split.
  - apply NoDup_cons in Hnodup as [Hfresh Hnodup].
    pose proof Hrun as Hreturned.
    simpl in Hrun. unfold mbind, Async_bind in Hrun.
    destruct (task i w) as [[result|ex] w1] eqn:Htask; [|discriminate Hrun].
    pose proof Hrun as Hrest.
    apply run_in_completion_order_returned in Hrest as [_ Hslots].
    apply IH in Hrun as (worlds & Hlength & Hfirst & Hlast & Htrace); [|done|].
    2:{ intros j Hj. rewrite length_insert. apply Hbound. by right. }
    exists (w :: worlds). simpl. split; [by rewrite Hlength|].
    split; [done|]. split; [done|].
    intros [|k] j Hj; simpl in Hj.
    + injection Hj as <-. exists result, w, w1.
      split; [done|]. split; [done|]. split; [done|].
      rewrite (proj2 (Hslots i) Hfresh).
      apply list_lookup_insert_eq, Hbound. by left.
    + by apply Htrace.
Qed.

(** With a conversation identifier given, what a dispatch returns or raises
    does not depend on the world it runs in. *)
Lemma dispatch_result_given_conversation `{Sha256} self target labels_
    orchestrator_identifier_ request s s' :
  truthy_str (NormalizerRequest.conversation_id request) = true →
  (dispatch self target labels_ orchestrator_identifier_ request s).1
  = (dispatch self target labels_ orchestrator_identifier_ request s').1.
Proof.
  intros Hgiven. unfold dispatch.
  destruct (build_run self (NormalizerRequest.seed_prompt_group request)
              (NormalizerRequest.conversation_id request)
              (NormalizerRequest.request_converter_configurations request)
              target (-1) labels_ orchestrator_identifier_ s)
    as (conversation & w1 & Hrun & _ & Hsame & _).
  destruct (build_run self (NormalizerRequest.seed_prompt_group request)
              (NormalizerRequest.conversation_id request)
              (NormalizerRequest.request_converter_configurations request)
              target (-1) labels_ orchestrator_identifier_ s')
    as (conversation' & w1' & Hrun' & _ & Hsame' & _).
  destruct (Hsame Hgiven) as [Hconversation _].
  destruct (Hsame' Hgiven) as [Hconversation' _].
  rewrite Hconversation in Hconversation'. injection Hconversation' as <-.
  rewrite (send_prompt_async_run _ _ _ _ _ _ _ _ _ _ _ _ Hrun),
    (send_prompt_async_run _ _ _ _ _ _ _ _ _ _ _ _ Hrun').
  cbv zeta.
  destruct (PromptTarget.send_prompt_async target _) as [[response|]|ex];
    [done|done|].
  destruct (request_pieces (hash_pieces _)) as [|piece pieces]; [done|].
  by destruct ex.
Qed.

(** C9: the batch returns one response per request, and the response at
    index [i] is what the dispatch of the request at index [i] returned,
    whatever the order in which the dispatches complete.  Of every list the
    batch returns: the dispatches ran one after the other in completion
    order, each in the world the one before it left, from the world the
    batch started in to the world it ends in, and the response at index [i]
    is what the dispatch of request [i] returned in its turn; when every
    request has its conversation identifier, the list is the list of what
    the dispatches return, whatever the completion order.  And the batch
    does return a list when no dispatch raises (a dispatch that raises ends
    the batch with its exception). *)
Theorem batch_results_in_submission_order `{Sha256} completion_order self
    requests target labels_ orchestrator_identifier_ batch_size w :
  completion_order ≡ₚ seq 0 (length requests) →
  (∀ responses w',
     send_prompt_batch_to_target_async completion_order self requests target
       labels_ orchestrator_identifier_ batch_size w = (Returned responses, w') →
     length responses = length requests
     ∧ (∃ worlds,
          length worlds = S (length requests)
          ∧ worlds !! 0%nat = Some w
          ∧ worlds !! length requests = Some w'
          ∧ ∀ k i,
              completion_order !! k = Some i →
              ∃ request response s s',
                requests !! i = Some request
                ∧ worlds !! k = Some s
                ∧ worlds !! S k = Some s'
                ∧ dispatch self target labels_ orchestrator_identifier_ request s
                  = (Returned response, s')
                ∧ responses !! i = Some response)
     ∧ (∀ i request,
          requests !! i = Some request →
          ∃ response s s',
            responses !! i = Some response
            ∧ dispatch self target labels_ orchestrator_identifier_ request s
              = (Returned response, s'))
     ∧ (Forall
          (λ request,
             truthy_str (NormalizerRequest.conversation_id request) = true)
          requests →
        Returned <$> responses
        = (λ request,
             (dispatch self target labels_ orchestrator_identifier_ request w).1)
          <$> requests))
  ∧ ((∀ i request s,
        requests !! i = Some request →
        ∃ response s',
          dispatch self target labels_ orchestrator_identifier_ request s
          = (Returned response, s')) →
     ∃ responses w',
       send_prompt_batch_to_target_async completion_order self requests target
         labels_ orchestrator_identifier_ batch_size w = (Returned responses, w')).
Proof.
  intros Horder.
  unfold send_prompt_batch_to_target_async, batch_task_async.
  cbv zeta. cbn [head default].
  set (task := λ batch_index : nat, match item_kwargs _ _ _ batch_index with
                                   | Some kwargs => _
                                   | None => _
                                   end).
  replace (length (Datatypes.id _)) with (length requests)
    by (symmetry; apply length_fmap).
  assert (∀ i request, requests !! i = Some request →
          task i = dispatch self target labels_ orchestrator_identifier_ request)
    as Htask.
  { intros i request Hrequest. unfold task.
    rewrite (batch_item_kwargs requests _ i request Hrequest).
    apply call_send_prompt_async_item. }
  assert (∀ j, (j < length requests)%nat ↔ j ∈ completion_order) as Hran.
  { intros j. rewrite Horder, elem_of_seq. lia. }
  unfold mbind, Async_bind. split.
  - intros responses w' Hbatch.
    destruct (run_in_completion_order task completion_order _ w)
      as [[filled|ex] w1] eqn:Hrun; [|discriminate Hbatch].
    destruct (mapM Datatypes.id filled) as [responses'|] eqn:Hread;
      [|discriminate Hbatch].
    injection Hbatch as -> ->.
    apply mapM_Some_1 in Hread.
    pose proof Hrun as Hreturned.
    apply run_in_completion_order_returned in Hreturned as [Hlength _].
    rewrite length_replicate in Hlength.
    apply run_in_completion_order_trace in Hrun
      as (worlds & Hworlds & Hfirst & Hlast & Htrace).
    2:{ rewrite Horder. apply NoDup_seq. }
    2:{ intros i Hi. rewrite length_replicate. by apply Hran. }
    rewrite (Permutation_length Horder), length_seq in Hworlds, Hlast.
    assert (∀ k i,
              completion_order !! k = Some i →
              ∃ request response s s',
                requests !! i = Some request
                ∧ worlds !! k = Some s
                ∧ worlds !! S k = Some s'
                ∧ dispatch self target labels_ orchestrator_identifier_ request s
                  = (Returned response, s')
                ∧ responses !! i = Some response) as Hturns.
    { intros k i Hk.
      destruct (Htrace k i Hk) as (result & s & s' & Hs & Hs' & Hdispatch & Hslot).
      assert (i ∈ completion_order) as Hi by (by eapply list_elem_of_lookup_2).
      apply Hran, lookup_lt_is_Some in Hi as [request Hrequest].
      destruct (Forall2_lookup_l _ _ _ _ _ Hread Hslot)
        as (response & Hresponse & Hid).
      simpl in Hid. injection Hid as <-.
      exists request, result, s, s'.
      by rewrite <- (Htask _ _ Hrequest). }
    assert (∀ i request,
              requests !! i = Some request →
              ∃ response s s',
                responses !! i = Some response
                ∧ dispatch self target labels_ orchestrator_identifier_ request s
                  = (Returned response, s')) as Hevery.
    { intros i request Hrequest.
      assert (i ∈ completion_order) as [k Hk]%list_elem_of_lookup.
      { apply Hran. by eapply lookup_lt_Some. }
      destruct (Hturns k i Hk)
        as (request' & response & s & s' & Hrequest' & _ & _ & Hdispatch & Hresponse).
      rewrite Hrequest in Hrequest'. injection Hrequest' as <-.
      by exists response, s, s'. }
    split; [by rewrite <- (Forall2_length _ _ _ Hread)|].
    split; [by exists worlds|]. split; [done|].
    intros Hgiven. apply list_eq. intros i.
    rewrite !list_lookup_fmap.
    destruct (requests !! i) as [request|] eqn:Hrequest.
    + destruct (Hevery i request Hrequest)
        as (response & s & s' & Hresponse & Hdispatch).
      rewrite Hresponse. simpl. f_equal.
      rewrite Forall_forall in Hgiven.
      rewrite <- (dispatch_result_given_conversation _ _ _ _ _ s w).
      * by rewrite Hdispatch.
      * apply Hgiven. by eapply list_elem_of_lookup_2.
    + apply lookup_ge_None in Hrequest.
      rewrite (proj2 (lookup_ge_None responses i)); [done|].
      rewrite <- (Forall2_length _ _ _ Hread). lia.
  - intros Hreturns.
    destruct (run_in_completion_order_returns task completion_order) with
      (buffer := replicate (length requests) (@None (option PromptRequestResponse)))
      (w := w)
      as (filled & w' & Hrun).
    { intros i s Hi. apply Hran, lookup_lt_is_Some in Hi as [request Hrequest].
      rewrite (Htask _ _ Hrequest). by apply (Hreturns i). }
    rewrite Hrun.
    pose proof Hrun as Hfilled.
    apply run_in_completion_order_returned in Hfilled as [Hlength Hslots].
    rewrite length_replicate in Hlength.
    destruct (mapM_is_Some_2 Datatypes.id filled) as [responses Hread].
    { apply Forall_lookup. intros j slot Hslot.
      destruct (Hslots j) as [Hfilled _].
      destruct Hfilled as (result & _ & _ & Hresult & _).
      { apply Hran. rewrite <- Hlength. by eapply lookup_lt_Some. }
      { rewrite length_replicate, <- Hlength. by eapply lookup_lt_Some. }
      rewrite Hresult in Hslot. by simplify_eq/=. }
    rewrite Hread. by exists responses, w'.
Qed.

(** * Further properties of the code *)

(** ** Converter chains *)

Lemma lookup_convert_values self converter_configurations :
  ∀ request_response i,
    request_pieces (convert_values self converter_configurations request_response) !! i
    = convert_piece_through self converter_configurations i
      <$> request_pieces request_response !! i.
Proof.
  induction converter_configurations as [|configuration configurations IH];
    intros request_response i.
  - simpl. by destruct (request_pieces request_response !! i).
  - rewrite convert_values_cons, IH. simpl.
    rewrite list_lookup_imap.
    by destruct (request_pieces request_response !! i).
Qed.

(** X2: [convert_values] works piece by piece.  The piece at an index comes
    out as that piece taken through the configurations in list order, each
    with its filter and chain; so the loop over configurations outside and
    pieces inside gives what a loop over pieces outside would give, and what
    comes out at an index does not depend on the other pieces. *)
Theorem convert_values_piecewise self converter_configurations request_response i :
  request_pieces (convert_values self converter_configurations request_response) !! i
  = convert_piece_through self converter_configurations i
    <$> request_pieces request_response !! i
  ∧ request_pieces (convert_values self converter_configurations request_response)
    = imap (convert_piece_through self converter_configurations)
        (request_pieces request_response)
  ∧ ∀ other,
      request_pieces other !! i = request_pieces request_response !! i →
      request_pieces (convert_values self converter_configurations other) !! i
      = request_pieces
          (convert_values self converter_configurations request_response) !! i.
Proof.
  split; [apply lookup_convert_values|]. split.
  - apply list_eq. intros j.
    by rewrite lookup_convert_values, list_lookup_imap.
  - intros other Hsame. by rewrite !lookup_convert_values, Hsame.
Qed.

Lemma skipped_without_types converter_configuration piece_index piece other :
  truthy (prompt_data_types_to_apply converter_configuration) = false →
  skipped converter_configuration piece_index piece
  = skipped converter_configuration piece_index other.
Proof. unfold skipped. by intros ->. Qed.

Lemma apply_converters_app self first_chain second_chain indexes data_types piece :
  apply_converters self
    {| converters := second_chain;
       indexes_to_apply := indexes;
       prompt_data_types_to_apply := data_types |}
    (apply_converters self
       {| converters := first_chain;
          indexes_to_apply := indexes;
          prompt_data_types_to_apply := data_types |}
       piece)
  = apply_converters self
      {| converters := first_chain ++ second_chain;
         indexes_to_apply := indexes;
         prompt_data_types_to_apply := data_types |}
      piece.
Proof.
  unfold apply_converters. simpl.
  rewrite fmap_app, foldl_app, (assoc_L (++)).
  by destruct (foldl _ _ first_chain).
Qed.

(** X3: chains compose by concatenation.  Two configurations in a row with
    the same index filter and no data-type filter do to a request what the
    one configuration with the first chain followed by the second does. *)
Theorem convert_values_chains_concatenate self first_chain second_chain indexes
    data_types request_response :
  truthy data_types = false →
  convert_values self
    [ {| converters := first_chain;
         indexes_to_apply := indexes;
         prompt_data_types_to_apply := data_types |};
      {| converters := second_chain;
         indexes_to_apply := indexes;
         prompt_data_types_to_apply := data_types |} ]
    request_response
  = convert_values self
      [ {| converters := first_chain ++ second_chain;
           indexes_to_apply := indexes;
           prompt_data_types_to_apply := data_types |} ]
      request_response.
Proof.
  intros Htypes. simpl. f_equal. apply list_eq. intros i.
  rewrite !list_lookup_imap.
  destruct (request_pieces request_response !! i) as [piece|]; [|done].
  simpl. f_equal. unfold convert_piece.
  assert (∀ chain other,
            skipped {| converters := chain;
                       indexes_to_apply := indexes;
                       prompt_data_types_to_apply := data_types |} i other
            = skipped {| converters := first_chain;
                         indexes_to_apply := indexes;
                         prompt_data_types_to_apply := data_types |} i piece)
    as Hskipped.
  { intros chain other. unfold skipped. simpl. by rewrite Htypes. }
  rewrite (Hskipped second_chain), (Hskipped (first_chain ++ second_chain) piece).
  destruct (skipped _ i piece); [done|]. apply apply_converters_app.
Qed.

(** X4: the data-type filter of a configuration looks at the data type the
    configurations before it have left in the piece, not at the type the
    piece came with.  When a first configuration applies to a piece and its
    chain ends in a data type outside the data-type set of a second one, the
    second leaves the piece as the first made it. *)
Theorem later_filter_sees_converted_type self first second request_response i
    piece :
  request_pieces request_response !! i = Some piece →
  applies first i piece →
  truthy (prompt_data_types_to_apply second) = true →
  converted_value_data_type (apply_converters self first piece)
  ∉ default [] (prompt_data_types_to_apply second) →
  request_pieces (convert_values self [first; second] request_response) !! i
  = Some (apply_converters self first piece).
Proof.
  intros Hpiece Hfirst Htruthy Houtside.
  rewrite lookup_convert_values, Hpiece. simpl.
  unfold convert_piece_through. simpl.
  rewrite (convert_piece_applies _ _ _ _ Hfirst).
  f_equal. apply convert_piece_excluded.
  intros [_ [Hempty|Hheld]]; [|done].
  destruct (prompt_data_types_to_apply second) as [[|type types]|]; done.
Qed.

Lemma apply_converters_no_converters self converter_configuration piece :
  converters converter_configuration = [] →
  apply_converters self converter_configuration piece = piece.
Proof.
  intros Hnone. unfold apply_converters. rewrite Hnone. simpl.
  rewrite app_nil_r. by destruct piece.
Qed.

(** X5: a configuration without converters changes nothing, whatever its
    filter: a request comes out of any list of such configurations as it
    went in (and so it does out of the empty list). *)
Theorem convert_values_no_converters self converter_configurations :
  Forall (λ converter_configuration, converters converter_configuration = [])
    converter_configurations →
  ∀ request_response,
    convert_values self converter_configurations request_response
    = request_response.
Proof.
  induction 1 as [|configuration configurations Hnone _ IH];
    intros request_response; [done|].
  rewrite convert_values_cons.
  replace (imap (convert_piece self configuration) (request_pieces request_response))
    with (request_pieces request_response).
  { rewrite IH. by destruct request_response. }
  apply list_eq. intros i. rewrite list_lookup_imap.
  destruct (request_pieces request_response !! i) as [piece|]; [|done].
  simpl. f_equal. unfold convert_piece.
  destruct (skipped _ _ _); [done|].
  by rewrite apply_converters_no_converters.
Qed.

(** X6: [convert_values] only ever appends to the list of converter
    identifiers of a piece: the list a piece came with is a prefix of the
    list it leaves with. *)
Theorem convert_values_keeps_identifiers self converter_configurations :
  ∀ request_response,
    Forall2
      (λ before after,
         converter_identifiers before `prefix_of` converter_identifiers after)
      (request_pieces request_response)
      (request_pieces
         (convert_values self converter_configurations request_response)).
Proof.
  induction converter_configurations as [|configuration configurations IH];
    intros request_response.
  - simpl. apply Forall_Forall2_diag, Forall_forall. by intros piece _.
  - rewrite convert_values_cons.
    eapply Forall2_trans with
      (P := λ before after,
              converter_identifiers before `prefix_of` converter_identifiers after);
      [| |apply IH].
    { intros first second third H12 H23. simpl in *.
      by trans (converter_identifiers second). }
    simpl. apply Forall2_same_length_lookup_2; [by rewrite length_imap|].
    intros i before after Hbefore Hafter.
    rewrite list_lookup_imap, Hbefore in Hafter. simplify_eq/=.
    unfold convert_piece. destruct (skipped _ _ _); [done|].
    simpl. by apply prefix_app_r.
Qed.

(** X7: an index that is no position of the request selects nothing and is
    no error.  A configuration whose indexes are all negative or past the
    last piece leaves the request as it was. *)
Theorem convert_values_indexes_out_of_range self converter_configuration
    indexes request_response :
  indexes_to_apply converter_configuration = Some indexes →
  indexes ≠ [] →
  Forall (λ index : Z,
            (index < 0 ∨ Z.of_nat (length (request_pieces request_response)) ≤ index)%Z)
    indexes →
  convert_values self [converter_configuration] request_response
  = request_response.
Proof.
  intros Hindexes Hsome Hout. simpl.
  replace (imap (convert_piece self converter_configuration)
             (request_pieces request_response))
    with (request_pieces request_response); [by destruct request_response|].
  apply list_eq. intros i. rewrite list_lookup_imap.
  destruct (request_pieces request_response !! i) as [piece|] eqn:Hpiece; [|done].
  simpl. f_equal. symmetry. apply convert_piece_excluded.
  intros [[Hempty|Hheld] _]; rewrite Hindexes in *; simpl in *; [done|].
  apply lookup_lt_Some in Hpiece.
  rewrite Forall_forall in Hout. specialize (Hout _ Hheld). lia.
Qed.

(** ** Building and sending *)

(** X8: what a call of [send_prompt_async] ends in is decided by the target
    alone (for a request with a piece to answer).  The call returns [None]
    exactly when the target returned [None]; it raises exactly when the
    target raised another exception than the empty-response signal, and
    then it raises that very exception, unwrapped; it returns a response
    exactly when the target returned one or signalled an empty response. *)
Theorem send_prompt_async_outcome `{Sha256} self seed_prompt_group target
    conversation_id request_converter_configurations
    response_converter_configurations sequence labels orchestrator_identifier
    w request w1 :
  _build_prompt_request_response self seed_prompt_group conversation_id
    request_converter_configurations target sequence labels
    orchestrator_identifier w = (Returned request, w1) →
  prompts seed_prompt_group ≠ [] →
  ∃ outcome w2,
    send_prompt_async self seed_prompt_group target conversation_id
      request_converter_configurations response_converter_configurations
      sequence labels orchestrator_identifier w = (outcome, w2)
    ∧ (outcome = Returned None
       ↔ PromptTarget.send_prompt_async target request = Returned None)
    ∧ (∀ ex,
         outcome = Raised ex
         ↔ PromptTarget.send_prompt_async target request = Raised ex
           ∧ ∀ message, ex ≠ EmptyResponseException message)
    ∧ ((∃ response, outcome = Returned (Some response))
       ↔ (∃ response,
            PromptTarget.send_prompt_async target request
            = Returned (Some response))
         ∨ ∃ message,
             PromptTarget.send_prompt_async target request
             = Raised (EmptyResponseException message)).
Proof.
  intros Hbuild Hprompts.
  destruct (build_first_piece _ _ _ _ _ _ _ _ _ _ _ Hbuild Hprompts)
    as [first Hfirst].
  rewrite (send_prompt_async_run _ _ _ _ _ _ _ _ _ _ _ _ Hbuild).
  cbv zeta.
  assert (∃ piece pieces, request_pieces (hash_pieces request) = piece :: pieces)
    as (piece & pieces & ->).
  { unfold hash_pieces. simpl.
    destruct (request_pieces request); [done|by eexists _, _]. }
  destruct (PromptTarget.send_prompt_async target request)
    as [[response|]|[message|class_name message]];
    eexists _, _; (split; [reflexivity|]).
  - split; [done|]. split; [by split; [|intros []]|].
    split; [eauto|eauto].
  - split; [done|]. split; [by split; [|intros []]|].
    split; [by intros []|]. by intros [[]|[]].
  - split; [done|]. split.
    { intros ex. split; [done|]. intros [[= <-] Hsignal].
      by destruct (Hsignal message). }
    split; [eauto|eauto].
  - split; [done|]. split.
    { intros ex. split.
      - intros [= <-]. split; [done|]. by intros.
      - by intros [[= <-] _]. }
    split; [by intros []|]. by intros [[]|[]].
Qed.

(** X9: every piece of a built request carries the [sequence], the [labels]
    and the orchestrator identifier the caller gave and the identifier of
    the target, whatever the request converters do. *)
Theorem build_stamps_every_piece self seed_prompt_group conversation_id_
    request_converter_configurations target sequence_ labels_
    orchestrator_identifier_ w :
  ∃ request w1,
    _build_prompt_request_response self seed_prompt_group conversation_id_
      request_converter_configurations target sequence_ labels_
      orchestrator_identifier_ w = (Returned request, w1)
    ∧ Forall
        (λ piece,
           sequence piece = sequence_
           ∧ labels piece = labels_
           ∧ orchestrator_identifier piece = orchestrator_identifier_
           ∧ prompt_target_identifier piece = PromptTarget.get_identifier target)
        (request_pieces request).
Proof.
  destruct (build_run self seed_prompt_group conversation_id_
              request_converter_configurations target sequence_ labels_
              orchestrator_identifier_ w)
    as (conversation & w1 & Hrun & _).
  eexists _, w1. split; [exact Hrun|].
  apply Forall_lookup. intros i piece Hpiece.
  pose proof (convert_values_same_frame self request_converter_configurations
                {| request_pieces :=
                     (λ seed_prompt,
                        PromptRequestPiece__init__ "user" (value seed_prompt)
                          conversation sequence_ labels_ (metadata seed_prompt)
                          (PromptTarget.get_identifier target)
                          orchestrator_identifier_ (data_type seed_prompt) None
                          "none")
                     <$> prompts seed_prompt_group |}) as Hframe.
  destruct (Forall2_lookup_r _ _ _ _ _ Hframe Hpiece)
    as (built & Hbuilt & Hsame).
  simpl in Hbuilt. rewrite list_lookup_fmap in Hbuilt.
  destruct (prompts seed_prompt_group !! i) as [seed_prompt|]; [|done].
  simpl in Hbuilt. injection Hbuilt as <-.
  unfold same_frame in Hsame. simpl in Hsame. by destruct_and!.
Qed.

(** X10: what a call of [send_prompt_async] does to the world, whatever its
    outcome.  It appends one or two records to the memory and leaves the
    earlier ones alone; it draws one uuid when it is given no conversation
    identifier and none otherwise. *)
Theorem send_prompt_async_effects `{Sha256} self seed_prompt_group target
    conversation_id request_converter_configurations
    response_converter_configurations sequence labels orchestrator_identifier w :
  ∃ outcome w2 new,
    send_prompt_async self seed_prompt_group target conversation_id
      request_converter_configurations response_converter_configurations
      sequence labels orchestrator_identifier w = (outcome, w2)
    ∧ memory w2 = memory w ++ new
    ∧ (length new = 1 ∨ length new = 2)%nat
    ∧ uuid4_source w2 = uuid4_source w
    ∧ uuid4_calls w2
      = (uuid4_calls w + if truthy_str conversation_id then 0 else 1)%nat.
Proof.
  destruct (build_run self seed_prompt_group conversation_id
              request_converter_configurations target sequence labels
              orchestrator_identifier w)
    as (conversation & w1 & Hrun & Hmemory & Hgiven & Hdrawn).
  assert (uuid4_source w1 = uuid4_source w
          ∧ uuid4_calls w1
            = (uuid4_calls w + if truthy_str conversation_id then 0 else 1)%nat)
    as [Hsource Hcalls].
  { unfold _build_prompt_request_response, mbind, Async_bind in Hrun.
    destruct (truthy_str conversation_id); simpl in Hrun;
      injection Hrun as _ <-; simpl; split; (done || lia). }
  rewrite (send_prompt_async_run _ _ _ _ _ _ _ _ _ _ _ _ Hrun).
  cbv zeta.
  destruct (PromptTarget.send_prompt_async target _) as [[response|]|ex];
    [| |destruct (request_pieces (hash_pieces _)) as [|piece pieces];
        [|destruct ex as [message|class_name message]]].
  - eexists _, _, [_; _]. split; [reflexivity|]. simpl.
    rewrite Hmemory, <- (assoc_L (++)). by eauto.
  - eexists _, _, [_]. split; [reflexivity|]. simpl.
    rewrite Hmemory. by eauto.
  - eexists _, _, [_]. split; [reflexivity|]. simpl.
    rewrite Hmemory. by eauto.
  - eexists _, _, [_; _]. split; [reflexivity|]. simpl.
    rewrite Hmemory, <- (assoc_L (++)). by eauto.
  - eexists _, _, [_; _]. split; [reflexivity|]. simpl.
    rewrite Hmemory, <- (assoc_L (++)). by eauto.
Qed.

(** A request built with no conversation identifier is in the conversation
    of the next uuid of the source. *)
Lemma build_one_piece_in_conversation self seed_prompt_group
    request_converter_configurations target sequence_ labels_
    orchestrator_identifier_ w :
  ∃ request w1,
    _build_prompt_request_response self seed_prompt_group None
      request_converter_configurations target sequence_ labels_
      orchestrator_identifier_ w = (Returned request, w1)
    ∧ (uuid4_source w1 = uuid4_source w ∧ uuid4_calls w1 = S (uuid4_calls w))
    ∧ ∀ piece,
        piece ∈ request_pieces request →
        conversation_id piece = uuid4_source w (uuid4_calls w).
Proof.
  eexists _, _. split; [reflexivity|]. split; [done|].
  intros piece [i Hpiece]%list_elem_of_lookup.
  cbn [fst] in Hpiece.
  match type of Hpiece with
  | request_pieces (convert_values _ _ ?built) !! _ = _ =>
      pose proof (convert_values_same_frame self
                    request_converter_configurations built) as Hframe
  end.
  destruct (Forall2_lookup_r _ _ _ _ _ Hframe Hpiece)
    as (built & Hbuilt & Hsame).
  simpl in Hbuilt. rewrite list_lookup_fmap in Hbuilt.
  destruct (prompts seed_prompt_group !! i) as [seed_prompt|]; [|done].
  simpl in Hbuilt. injection Hbuilt as <-.
  unfold same_frame in Hsame. simpl in Hsame. by destruct_and!.
Qed.

(** X11: conversations of their own.  With a uuid source that never repeats
    itself, a normalizer and two requests built one after the other with no
    conversation identifier get three different uuids: no piece of either
    request is in a conversation named like the normalizer, and no piece of
    the second request is in the conversation of the first. *)
Theorem built_conversations_are_distinct start_token end_token first_group
    second_group first_configurations second_configurations target sequence_
    labels_ orchestrator_identifier_ w :
  Inj (=) (=) (uuid4_source w) →
  ∃ self w1 first w2 second w3,
    PromptNormalizer__init__ start_token end_token w = (Returned self, w1)
    ∧ _build_prompt_request_response self first_group None
        first_configurations target sequence_ labels_
        orchestrator_identifier_ w1 = (Returned first, w2)
    ∧ _build_prompt_request_response self second_group None
        second_configurations target sequence_ labels_
        orchestrator_identifier_ w2 = (Returned second, w3)
    ∧ _start_token self = start_token
    ∧ _end_token self = end_token
    ∧ (∀ piece,
         piece ∈ request_pieces first ++ request_pieces second →
         conversation_id piece ≠ id self)
    ∧ (∀ piece other,
         piece ∈ request_pieces first →
         other ∈ request_pieces second →
         conversation_id piece ≠ conversation_id other).
Proof.
  intros Hinj.
  set (self := {| _start_token := start_token; _end_token := end_token;
                  id := uuid4_source w (uuid4_calls w) |}).
  destruct (build_one_piece_in_conversation self first_group
              first_configurations target sequence_ labels_
              orchestrator_identifier_ (uuid4 w).2)
    as (first & w2 & Hfirst & Hw2 & Hconversation1).
  destruct (build_one_piece_in_conversation self second_group
              second_configurations target sequence_ labels_
              orchestrator_identifier_ w2)
    as (second & w3 & Hsecond & Hw3 & Hconversation2).
  destruct Hw2 as [Hsource2 Hcalls2]. simpl in Hsource2, Hcalls2.
  rewrite Hsource2, Hcalls2 in Hconversation2. simpl in Hconversation1.
  exists self, (uuid4 w).2, first, w2, second, w3.
  split; [done|]. split; [done|]. split; [done|]. split; [done|].
  split; [done|]. split.
  - intros piece [Hpiece|Hpiece]%elem_of_app.
    + rewrite (Hconversation1 _ Hpiece). simpl.
      intros Hsame%Hinj. lia.
    + rewrite (Hconversation2 _ Hpiece). simpl.
      intros Hsame%Hinj. lia.
  - intros piece other Hpiece Hother.
    rewrite (Hconversation1 _ Hpiece), (Hconversation2 _ Hother).
    intros Hsame%Hinj. lia.
Qed.

(** * The results on sample objects *)

(** C6 on a sample: on the text piece "a", rendering and then exclaiming
    leaves "a.png!" with the data type the renderer gave, "image_path";
    exclaiming and then rendering leaves "a!.png". *)
Lemma convert_values_runs_chain_in_order_sample :
  request_pieces sample_request !! 0%nat
  = Some (PromptRequestPiece__init__ "user" "a" "conversation-1" (-1) None None
            ∅ None "text" None "none")
  ∧ converted
      <$> request_pieces
            (convert_values sample_normalizer [text_only [render; exclaim]]
               sample_request) !! 0%nat
    = Some ("a.png!", "image_path")
  ∧ converted
      <$> request_pieces
            (convert_values sample_normalizer [text_only [render; exclaim]]
               sample_request) !! 0%nat
    ≠ converted
        <$> request_pieces
              (convert_values sample_normalizer [text_only [exclaim; render]]
                 sample_request) !! 0%nat.
Proof.
  split; [reflexivity|].
  destruct (convert_values_runs_chain_in_order sample_normalizer sample_request
              0 _ eq_refl) as [Hchain Horder].
  assert (applies (text_only [render; exclaim]) 0
            (PromptRequestPiece__init__ "user" "a" "conversation-1" (-1) None
               None ∅ None "text" None "none")) as Happlies.
  { split; [by left|right]. vm_compute. apply list_elem_of_here. }
  split.
  - destruct (Hchain (text_only [render; exclaim]) Happlies)
      as (piece' & stages & Hpiece' & _ & Hfirst & Hstep & Hlast & _).
    rewrite Hpiece'. simpl. f_equal. unfold converted.
    pose proof (Hstep 0%nat render _ _ eq_refl Hfirst) as Hsecond.
    pose proof (Hstep 1%nat exclaim _ _ eq_refl Hsecond) as Hthird.
    simpl in Hlast, Hthird. rewrite Hlast in Hthird.
    by injection Hthird as -> ->.
  - refine (Horder render exclaim None (Some ["text"]) Happlies _).
    vm_compute. intros Hsame. discriminate Hsame.
Defined.


(** C5 on a sample: after a failing call on an empty memory, every stored
    piece has the hash of its converted value. *)
Lemma stored_hash_is_hash_of_converted_value_sample :
  memory_hashes_match (H := sample_sha256) sample_world
  ∧ memory_hashes_match (H := sample_sha256)
      (send_prompt_async (H := sample_sha256) sample_normalizer sample_group
         failing_target None [text_only [exclaim]] [] (-1) None None
         sample_world).2.
Proof.
  split; [apply Forall_nil_2|].
  destruct (proj2 (stored_hash_is_hash_of_converted_value (H := sample_sha256)
                     sample_normalizer sample_world (Forall_nil_2 _))
              sample_group failing_target None [text_only [exclaim]] []
              (-1)%Z None None)
    as (outcome & w' & later & Hrun & _ & Hmatch).
  rewrite Hrun. exact Hmatch.
Defined.

(** C2 on a sample: the target fails with "quota exceeded"; the call raises
    that failure, and the error response in the memory reads
    "quota exceeded". *)
Lemma failure_is_recorded_then_raised_sample :
  ∃ w2 error_piece,
    send_prompt_async (H := sample_sha256) sample_normalizer sample_group
      failing_target None [] [] (-1) None None sample_world
    = (Raised (OtherException "Failure" "quota exceeded"), w2)
    ∧ last (memory w2)
      = Some {| written_for := arg_error_response;
                stored := {| request_pieces := [error_piece] |} |}
    ∧ converted_value error_piece = "quota exceeded"
    ∧ response_error error_piece = "processing".
Proof.
  edestruct (failure_is_recorded_then_raised (H := sample_sha256)
               sample_normalizer sample_group failing_target None [] []
               (-1)%Z None None sample_world)
    as (w2 & first & error_piece & Hrun & _ & Hmemory & _ & Hvalue & _ & _
        & Herror & _).
  - reflexivity.
  - reflexivity.
  - intros message Hsignal. discriminate Hsignal.
  - intros Hnil. discriminate Hnil.
  - exists w2, error_piece. split; [exact Hrun|].
    split; [|split; [exact Hvalue|exact Herror]].
    rewrite Hmemory. reflexivity.
Defined.

(** C3 on a sample: the target signals an empty response; the call returns
    one piece of empty text marked "empty". *)
Lemma empty_response_is_recorded_and_returned_sample :
  ∃ w2 response_piece,
    send_prompt_async (H := sample_sha256) sample_normalizer sample_group
      empty_target (Some "conversation-1") [] [] (-1) None None sample_world
    = (Returned (Some {| request_pieces := [response_piece] |}), w2)
    ∧ length (memory w2) = 2%nat
    ∧ converted response_piece = ("", "text")
    ∧ response_error response_piece = "empty".
Proof.
  edestruct (empty_response_is_recorded_and_returned (H := sample_sha256)
               sample_normalizer sample_group empty_target
               (Some "conversation-1") [] [] (-1)%Z None None sample_world)
    as (w2 & first & synthesized & response_piece & Hrun & Hmemory & _ & _ & _
        & _ & _ & _ & _ & _ & _ & Herror & _ & _ & _ & Hconverted).
  - reflexivity.
  - reflexivity.
  - intros Hnil. discriminate Hnil.
  - exists w2, response_piece. split; [exact Hrun|].
    split; [by rewrite Hmemory|].
    split; [exact (Hconverted eq_refl)|exact Herror].
Defined.

(** C8 on a sample: a target that returns nothing; the call returns [None]
    and the memory holds the request alone. *)
Lemma no_response_returns_none_sample :
  ∃ w2,
    send_prompt_async (H := sample_sha256) sample_normalizer sample_group
      text_target None [] [] (-1) None None sample_world
    = (Returned None, w2)
    ∧ written_for <$> memory w2 = [arg_request].
Proof.
  edestruct (no_response_returns_none (H := sample_sha256) sample_normalizer
               sample_group text_target None [] [] (-1)%Z None None
               sample_world)
    as (w2 & Hrun & Hmemory & _).
  - reflexivity.
  - reflexivity.
  - exists w2. split; [exact Hrun|]. rewrite Hmemory. reflexivity.
Defined.

(** C9 on a sample: three requests whose dispatches complete in the order
    2, 0, 1.  The responses come back in the order of the requests (the
    second in the conversation of the one uuid drawn), while the memory
    holds the records in the order the dispatches ran: request and response
    of the third request, of the first, of the second. *)
Lemma batch_results_in_submission_order_sample :
  ∃ responses w',
    send_prompt_batch_to_target_async (H := sample_sha256) [2; 0; 1]%nat
      sample_normalizer sample_requests echo_target None None 10 sample_world
    = (Returned responses, w')
    ∧ length responses = 3%nat
    ∧ (λ response : option PromptRequestResponse,
         conversation_id
         <$> (response ≫= λ response, head (request_pieces response)))
      <$> responses
      = [Some "conversation-0"; Some "uuid-0"; Some "conversation-2"]
    ∧ (λ write, conversation_id <$> head (request_pieces (stored write)))
      <$> memory w'
      = [ Some "conversation-2"; Some "conversation-2";
          Some "conversation-0"; Some "conversation-0";
          Some "uuid-0"; Some "uuid-0" ].
Proof.
  destruct (batch_results_in_submission_order (H := sample_sha256)
              [2; 0; 1]%nat sample_normalizer sample_requests echo_target None
              None 10%Z sample_world)
    as [Hreturned Hreturns].
  - eapply bool_decide_unpack. vm_compute. exact I.
  - destruct Hreturns as (responses & w' & Hrun).
    + intros [|[|[|i]]] request s Hrequest; [| | |discriminate Hrequest];
        injection Hrequest as <-; eexists _, _; vm_compute; reflexivity.
    + exists responses, w'. split; [exact Hrun|].
      split; [exact (proj1 (Hreturned responses w' Hrun))|].
      vm_compute in Hrun. injection Hrun as <- <-.
      split; vm_compute; reflexivity.
Defined.

(** C1 on a sample: with a failing target the call writes the request and
    then the record of the failure, and raises the failure. *)
Lemma request_persisted_exactly_once_sample :
  ∃ outcome w2,
    send_prompt_async (H := sample_sha256) sample_normalizer sample_group
      failing_target None [] [] (-1) None None sample_world = (outcome, w2)
    ∧ outcome = Raised (OtherException "Failure" "quota exceeded")
    ∧ written_for <$> memory w2 = [arg_request; arg_error_response].
Proof.
  destruct (request_persisted_exactly_once (H := sample_sha256)
              sample_normalizer sample_group failing_target None [] [] (-1)%Z
              None None sample_world)
    as (request & w1 & outcome & w2 & new & Hbuild & Hrun & Hmemory & _ & _
        & Hfailure).
  injection Hbuild as <- <-.
  destruct (Hfailure (OtherException "Failure" "quota exceeded"))
    as (Houtcome & failure & Hnew).
  - reflexivity.
  - intros message Hsignal. discriminate Hsignal.
  - intros Hnil. discriminate Hnil.
  - exists outcome, w2. split; [exact Hrun|]. split; [exact Houtcome|].
    rewrite Hmemory, Hnew. reflexivity.
Defined.

(** C4 on a sample: three seed prompts and no conversation identifier give
    three pieces in the conversation of the first uuid drawn. *)
Lemma build_one_piece_per_seed_prompt_sample :
  ∃ request w1,
    _build_prompt_request_response sample_normalizer sample_group None []
      echo_target (-1) None None sample_world = (Returned request, w1)
    ∧ original_value <$> request_pieces request = ["a"; "b"; "c"]
    ∧ conversation_id <$> request_pieces request = ["uuid-0"; "uuid-0"; "uuid-0"]
    ∧ uuid4_calls w1 = 1%nat.
Proof.
  destruct (build_one_piece_per_seed_prompt sample_normalizer sample_group None
              [] echo_target (-1)%Z None None sample_world)
    as (request & conversation & w1 & Hbuild & _).
  exists request, w1. split; [exact Hbuild|].
  injection Hbuild as <- <-. vm_compute. repeat split.
Defined.

(** X1 on a sample: three seed prompts "a", "b", "c", no
    converter, a target that echoes; the call returns three pieces whose
    converted value is their original value, with no error kind. *)
Lemma response_is_converted_recorded_and_returned_sample :
  ∃ w2 returned,
    send_prompt_async (H := sample_sha256) sample_normalizer sample_group
      echo_target None [] [] (-1) None None sample_world
    = (Returned (Some returned), w2)
    ∧ converted_value <$> request_pieces returned = ["a"; "b"; "c"]
    ∧ original_value <$> request_pieces returned = ["a"; "b"; "c"]
    ∧ response_error <$> request_pieces returned = ["none"; "none"; "none"].
Proof.
  edestruct (response_is_converted_recorded_and_returned (H := sample_sha256)
               sample_normalizer sample_group echo_target None [] [] (-1)%Z
               None None sample_world)
    as (w2 & returned & Hrun & Hreturned & _).
  - reflexivity.
  - reflexivity.
  - exists w2, returned. split; [exact Hrun|].
    rewrite Hreturned. vm_compute. repeat split.
Defined.

(** X3 on a sample: exclaim and then double on the first piece, as two
    configurations and as one. *)
Lemma convert_values_chains_concatenate_sample :
  truthy (@None (list string)) = false
  ∧ convert_values sample_normalizer
      [ {| converters := [exclaim];
           indexes_to_apply := Some [0%Z];
           prompt_data_types_to_apply := None |};
        {| converters := [double];
           indexes_to_apply := Some [0%Z];
           prompt_data_types_to_apply := None |} ]
      sample_request
    = convert_values sample_normalizer
        [ {| converters := [exclaim; double];
             indexes_to_apply := Some [0%Z];
             prompt_data_types_to_apply := None |} ]
        sample_request.
Proof.
  split; [reflexivity|].
  exact (convert_values_chains_concatenate sample_normalizer [exclaim] [double]
           (Some [0%Z]) None sample_request eq_refl).
Defined.

(** X4 on a sample: once the text "a" is rendered to an image, a chain for
    text pieces that comes next does not touch it. *)
Lemma later_filter_sees_converted_type_sample :
  converted
    <$> request_pieces
          (convert_values sample_normalizer
             [text_only [render]; text_only [exclaim]] sample_request) !! 0%nat
  = Some ("a.png", "image_path").
Proof.
  rewrite (later_filter_sees_converted_type sample_normalizer
             (text_only [render]) (text_only [exclaim]) sample_request 0
             (PromptRequestPiece__init__ "user" "a" "conversation-1" (-1) None
                None ∅ None "text" None "none")).
  - reflexivity.
  - reflexivity.
  - split; [by left|right]. vm_compute. apply list_elem_of_here.
  - reflexivity.
  - vm_compute. intros Hheld. apply list_elem_of_singleton in Hheld.
    discriminate Hheld.
Defined.

(** X5 on a sample: a configuration for text pieces with no converter. *)
Lemma convert_values_no_converters_sample :
  convert_values sample_normalizer [text_only []] sample_request = sample_request.
Proof.
  apply (convert_values_no_converters sample_normalizer [text_only []]).
  apply Forall_cons. split; [reflexivity|apply Forall_nil_2].
Defined.

(** X7 on a sample: the indexes -1 and 2 on a request of two pieces. *)
Lemma convert_values_indexes_out_of_range_sample :
  convert_values sample_normalizer
    [ {| converters := [exclaim];
         indexes_to_apply := Some [-1; 2]%Z;
         prompt_data_types_to_apply := None |} ]
    sample_request
  = sample_request.
Proof.
  apply (convert_values_indexes_out_of_range sample_normalizer _ [-1; 2]%Z).
  - reflexivity.
  - intros Hnil. discriminate Hnil.
  - apply Forall_cons. split; [left; reflexivity|].
    apply Forall_cons. split; [right; simpl; lia|apply Forall_nil_2].
Defined.

(** X8 on a sample: a failing target makes the call raise its failure. *)
Lemma send_prompt_async_outcome_sample :
  ∃ outcome w2,
    send_prompt_async (H := sample_sha256) sample_normalizer sample_group
      failing_target None [] [] (-1) None None sample_world = (outcome, w2)
    ∧ outcome = Raised (OtherException "Failure" "quota exceeded").
Proof.
  edestruct (send_prompt_async_outcome (H := sample_sha256) sample_normalizer
               sample_group failing_target None [] [] (-1)%Z None None
               sample_world)
    as (outcome & w2 & Hrun & _ & Hraised & _).
  - reflexivity.
  - intros Hnil. discriminate Hnil.
  - exists outcome, w2. split; [exact Hrun|].
    apply Hraised. split; [reflexivity|].
    intros message Hsignal. discriminate Hsignal.
Defined.

(** X11 on a sample: the sample source numbers its uuids, so it never
    repeats itself; the normalizer and the two requests get the uuids 0, 1
    and 2. *)
Lemma built_conversations_are_distinct_sample :
  ∃ self w1 first w2 second w3,
    PromptNormalizer__init__ default_start_token default_end_token sample_world
    = (Returned self, w1)
    ∧ _build_prompt_request_response self sample_group None [] echo_target (-1)
        None None w1 = (Returned first, w2)
    ∧ _build_prompt_request_response self sample_group None [] echo_target (-1)
        None None w2 = (Returned second, w3)
    ∧ id self = "uuid-0"
    ∧ conversation_id <$> request_pieces first = ["uuid-1"; "uuid-1"; "uuid-1"]
    ∧ conversation_id <$> request_pieces second = ["uuid-2"; "uuid-2"; "uuid-2"].
Proof.
  destruct (built_conversations_are_distinct default_start_token
              default_end_token sample_group sample_group [] [] echo_target
              (-1)%Z None None sample_world)
    as (self & w1 & first & w2 & second & w3 & Hinit & Hfirst & Hsecond & _).
  - intros m n Hsame. simpl in Hsame.
    injection Hsame as Hsame. by apply (inj pretty).
  - exists self, w1, first, w2, second, w3.
    split; [exact Hinit|]. split; [exact Hfirst|]. split; [exact Hsecond|].
    injection Hinit as <- <-. injection Hfirst as <- <-.
    injection Hsecond as <- <-. vm_compute. repeat split.
Defined.
